(** * ansible-portainer: the [portainer] module, embedded and verified

    Source: [plugins/modules/portainer.py].

    The module talks to a remote Portainer instance through the [requests]
    library, reads compose files from the local file system and reports
    through the Ansible module object.  The embedding keeps that shape:

    - the outside world (remote instance, network, local files) is an
      abstract state [World] together with two oracles, one for
      [requests.get]/[requests.post] and one for [open(path, 'rb')];
    - Python code is written in a small monad [M] that threads the world,
      propagates exceptions and records every observable effect (HTTP
      request with its result, file opening, [log], [warn]) in a trace;
    - [try ... except C as e] is [try_except], which only catches the
      exception classes the source names.

    Strings are byte strings; [lower] acts on the letters [A]..[Z]. *)

From Stdlib Require Import String Ascii List ZArith Bool Arith Lia DecimalString.
Import ListNotations.
Local Open Scope string_scope.

(** ** Python built-ins used by the module *)

Definition lower_char (c : ascii) : ascii :=
  let n := nat_of_ascii c in
  if (65 <=? n)%nat && (n <=? 90)%nat then ascii_of_nat (n + 32) else c.

(** [str.lower()], on the letters [A]..[Z].  Python also lowercases the
    cased letters outside ASCII; no proof below relies on what [lower]
    does to a letter, and the concrete runs use ASCII names. *)
Fixpoint lower (s : string) : string :=
  match s with
  | EmptyString => EmptyString
  | String c r => String (lower_char c) (lower r)
  end.

(** [x in l] for a list of strings *)
Fixpoint contains (x : string) (l : list string) : bool :=
  match l with
  | [] => false
  | y :: r => if String.eqb x y then true else contains x r
  end.

(** [l.count(b)] for a list of booleans *)
Fixpoint count (b : bool) (l : list bool) : nat :=
  match l with
  | [] => 0
  | x :: r => if Bool.eqb x b then S (count b r) else count b r
  end.

(** [f"{n}"] for a non-negative integer and for an integer *)
Definition str_nat (n : nat) : string := NilEmpty.string_of_uint (Nat.to_uint n).
Definition str_int (z : Z) : string := NilEmpty.string_of_int (Z.to_int z).

(** ** Exceptions

    Only the classes the module can meet: every error of [requests] is a
    [RequestException]; [open] raises [OSError]; a response body without
    the expected key or shape raises [KeyError] or [TypeError];
    [get_endpoint_id] raises plain [Exception]s.  All of them derive from
    [Exception].  [args] is the message, what [f"{e}"] prints. *)

Inductive ExcClass := RequestException | OSError | KeyError | TypeError | PlainException.

Record Exc := mkExc { exc_class : ExcClass; args : string }.

(** [e.args = (msg,)] *)
Definition set_args (e : Exc) (msg : string) : Exc := mkExc (exc_class e) msg.

(** [except requests.exceptions.RequestException] *)
Definition isRequestException (e : Exc) : bool :=
  match exc_class e with RequestException => true | _ => false end.

(** [except Exception] *)
Definition isException (e : Exc) : bool := true.

(** ** Data model *)

Record StackDeclaration := mkStack { name : string; compose_file : string }.

Record EndpointJson := mkEndpoint { Id : Z; Name : string }.

(** The decoded body of a response, [response.json()].  The shapes are the
    ones of the remote API: [{jwt}], [[{Id, Name}]], [[{Name}]].  A body
    of another shape than a call expects shows as the exception that
    reading it raises (see [json_jwt] and its siblings). *)
Inductive Payload :=
| NoPayload
| JwtPayload (jwt : string)
| EndpointsPayload (l : list EndpointJson)
| StacksPayload (l : list string).

Record Response := mkResponse {
  status_code : Z;
  reason : string;
  url : string;
  json : Payload
}.

(** The contents of an opened compose file. *)
Definition FileObj := string.

(** One constructor per HTTP call the module makes, with the values the
    call sends: credentials in the JSON body, the bearer token of the
    [Authorization] header, the form field [Name], the uploaded file and
    the [endpointId] parameter.  What is the same in every call of a kind
    ([verify=False], [EndpointCreationType=1], [type=2], [method=file])
    is left to the constructor. *)
Inductive Request :=
| GetRoot                                              (* GET  {root}/ *)
| PostAdminInit (username password : string)           (* POST {root}/api/users/admin/init *)
| GetAdminCheck                                        (* GET  {root}/api/users/admin/check *)
| PostEndpoints (token endpoint_name : string)         (* POST {root}/api/endpoints *)
| PostAuth (username password : string)                (* POST {root}/api/auth *)
| GetStacks (token : string)                           (* GET  {root}/api/stacks *)
| GetEndpoints (token : string)                        (* GET  {root}/api/endpoints *)
| PostStackCreate (token stack_name : string) (file : FileObj) (endpointId : Z).
                                                       (* POST {root}/api/stacks/create/standalone/file *)

Definition url_of (root_url : string) (r : Request) : string :=
  match r with
  | GetRoot => root_url ++ "/"
  | PostAdminInit _ _ => root_url ++ "/api/users/admin/init"
  | GetAdminCheck => root_url ++ "/api/users/admin/check"
  | PostEndpoints _ _ => root_url ++ "/api/endpoints"
  | PostAuth _ _ => root_url ++ "/api/auth"
  | GetStacks _ => root_url ++ "/api/stacks"
  | GetEndpoints _ => root_url ++ "/api/endpoints"
  | PostStackCreate _ _ _ _ => root_url ++ "/api/stacks/create/standalone/file"
  end.

(** What an outside observer sees of a run. *)
Inductive Event :=
| EvHttp (target : string) (r : Request) (result : Response + string)
| EvOpen (path : string) (result : FileObj + string)
| EvLog (msg : string)
| EvWarn (msg : string).

(** The outside world: [send] answers an HTTP request with a response or
    with the message of the [RequestException] it raises; [fopen] answers
    [open(path, 'rb')] with the file or the message of an [OSError]. *)
Record Remote (World : Type) := mkRemote {
  send : string -> Request -> World -> (Response + string) * World;
  fopen : string -> World -> (FileObj + string) * World
}.
Arguments send {World}.
Arguments fopen {World}.
Arguments mkRemote {World}.

(** ** The monad of module code *)

Inductive Outcome (A : Type) :=
| Return (a : A)
| Raise (e : Exc).
Arguments Return {A}.
Arguments Raise {A}.

Definition M (World A : Type) : Type := World -> Outcome A * World * list Event.

Definition ret {W A} (a : A) : M W A := fun w => (Return a, w, []).

Definition raise {W A} (e : Exc) : M W A := fun w => (Raise e, w, []).

Definition bind {W A B} (m : M W A) (f : A -> M W B) : M W B :=
  fun w =>
    match m w with
    | (Return a, w1, t1) =>
        match f a w1 with (o, w2, t2) => (o, w2, (t1 ++ t2)%list) end
    | (Raise e, w1, t1) => (Raise e, w1, t1)
    end.

(** [try: m  except <catches> as e: handler e] *)
Definition try_except {W A} (m : M W A) (catches : Exc -> bool)
    (handler : Exc -> M W A) : M W A :=
  fun w =>
    match m w with
    | (Return a, w1, t1) => (Return a, w1, t1)
    | (Raise e, w1, t1) =>
        if catches e
        then match handler e w1 with (o, w2, t2) => (o, w2, (t1 ++ t2)%list) end
        else (Raise e, w1, t1)
    end.

Definition emit {W} (ev : Event) : M W unit := fun w => (Return tt, w, [ev]).

Declare Scope py_scope.
Delimit Scope py_scope with py.
Notation "x <- c1 ;; c2" := (bind c1 (fun x => c2))
  (at level 61, c1 at next level, right associativity) : py_scope.
Notation "c1 ;; c2" := (bind c1 (fun _ => c2))
  (at level 61, right associativity) : py_scope.
Local Open Scope py_scope.

Section PortainerAPI.

Context {World : Type}.
Variable remote : Remote World.

(** [self.root_url] *)
Variable root_url : string.

(** [self.ansible_module.log] and [self.ansible_module.warn] *)
Definition log (msg : string) : M World unit := emit (EvLog msg).
Definition warn (msg : string) : M World unit := emit (EvWarn msg).

(** [requests.get] / [requests.post] with [verify=False] *)
Definition requests (r : Request) : M World Response :=
  fun w =>
    match send remote root_url r w with
    | (inl resp, w') => (Return resp, w', [EvHttp root_url r (inl resp)])
    | (inr msg, w') =>
        (Raise (mkExc RequestException msg), w', [EvHttp root_url r (inr msg)])
    end.

(** [open(path, 'rb')] *)
Definition open (path : string) : M World FileObj :=
  fun w =>
    match fopen remote path w with
    | (inl f, w') => (Return f, w', [EvOpen path (inl f)])
    | (inr msg, w') => (Raise (mkExc OSError msg), w', [EvOpen path (inr msg)])
    end.

(** [response.raise_for_status()] of the [requests] library: an
    [HTTPError] (a [RequestException]) for a status in 400..599. *)
Definition raise_for_status (response : Response) : M World unit :=
  let c := status_code response in
  if (400 <=? c)%Z && (c <? 500)%Z then
    raise (mkExc RequestException
             (str_int c ++ " Client Error: " ++ reason response
                ++ " for url: " ++ url response))
  else if (500 <=? c)%Z && (c <? 600)%Z then
    raise (mkExc RequestException
             (str_int c ++ " Server Error: " ++ reason response
                ++ " for url: " ++ url response))
  else ret tt.

(** [response.json()['jwt']].  Every body without a token is taken as
    the failed lookup; a body that is not JSON at all may, with recent
    versions of [requests], raise a [RequestException] instead, a path
    on which no theorem below states a class, a message or a log. *)
Definition json_jwt (response : Response) : M World string :=
  match json response with
  | JwtPayload t => ret t
  | _ => raise (mkExc KeyError "'jwt'")
  end.

(** [[stack['Name'] for stack in response.json()]] *)
Definition json_stack_names (response : Response) : M World (list string) :=
  match json response with
  | StacksPayload l => ret l
  | _ => raise (mkExc TypeError "string indices must be integers")
  end.

(** [response.json()] read as a list of endpoints.  The source returns
    the body unread and meets a body of another shape only when
    [get_endpoint_id] reads it; here the failure shows at the read.  The
    theorems below speak of listings, or say nothing for other bodies. *)
Definition json_endpoints (response : Response) : M World (list EndpointJson) :=
  match json response with
  | EndpointsPayload l => ret l
  | _ => raise (mkExc TypeError "string indices must be integers")
  end.

Definition ping : M World unit :=
  try_except
    (response <- requests GetRoot ;;
     raise_for_status response ;;
     ret tt)
    isRequestException
    (fun e =>
       let e := set_args e ("ERROR (ping). Exception: " ++ args e) in
       log (args e) ;;
       warn "Cannot reach portainer - check IP and port." ;;
       raise e).

Definition create_admin (admin_username admin_password : string) : M World unit :=
  log ("Changing password for admin user '" ++ admin_username ++ "'") ;;
  try_except
    (response <- requests (PostAdminInit admin_username admin_password) ;;
     raise_for_status response ;;
     log "Success: admin password changed")
    isRequestException
    (fun e =>
       let e := set_args e
         ("ERROR (create_admin): Admin init failed for user '" ++ admin_username
            ++ "'. Exception: " ++ args e) in
       log (args e) ;;
       raise e).

Definition check_admin_exists : M World bool :=
  log "Checking if admin already initialized..." ;;
  try_except
    (response <- requests GetAdminCheck ;;
     if (status_code response =? 204)%Z then
       warn "Portainer already initialized, skipping 'initial_setup'..." ;;
       ret true
     else
       ret false)
    isException
    (fun e =>
       let e := set_args e
         ("ERROR (check_admin_exists): Check if admin exists failed. Exception: "
            ++ args e) in
       log (args e) ;;
       raise e).

Definition create_endpoint (token endpoint_name : string) : M World unit :=
  log ("Creating endpoint " ++ endpoint_name) ;;
  try_except
    (response <- requests (PostEndpoints token endpoint_name) ;;
     raise_for_status response ;;
     log ("Success: endpoint '" ++ endpoint_name ++ "' created"))
    isRequestException
    (fun e =>
       let e := set_args e
         ("ERROR (create_endpoint): failed to create endpoint '" ++ endpoint_name
            ++ "'. Exception: " ++ args e) in
       log (args e) ;;
       raise e).

Definition create_session (admin_username admin_password : string) : M World string :=
  log ("Trying to login to " ++ root_url ++ " as " ++ admin_username) ;;
  try_except
    (response <- requests (PostAuth admin_username admin_password) ;;
     raise_for_status response ;;
     log ("SUCCESS: Logged in as " ++ admin_username ++ " - token received.") ;;
     json_jwt response)
    isRequestException
    (fun e =>
       let e := set_args e
         ("ERROR (create_session): Failed to authenticate as '" ++ admin_username
            ++ "', token not obtained. Exception: " ++ args e) in
       log (args e) ;;
       raise e).

Definition get_all_stacks (token : string) : M World (list string) :=
  log "Getting all stacks" ;;
  try_except
    (response <- requests (GetStacks token) ;;
     raise_for_status response ;;
     stacks <- json_stack_names response ;;
     log ("Received " ++ str_nat (length stacks) ++ " stacks") ;;
     ret stacks)
    isRequestException
    (fun e =>
       let e := set_args e
         ("ERROR (get_all_stacks): Getting stacks failed. Exception " ++ args e) in
       log (args e) ;;
       raise e).

Definition _get_all_endpoints (token : string) : M World (list EndpointJson) :=
  log "Getting endpoints" ;;
  try_except
    (response <- requests (GetEndpoints token) ;;
     raise_for_status response ;;
     endpoints <- json_endpoints response ;;
     log ("Received " ++ str_nat (length endpoints) ++ " endpoints") ;;
     ret endpoints)
    isRequestException
    (fun e =>
       let e := set_args e
         ("ERROR (_get_all_endpoints): Getting endpoints failed. Exception "
            ++ args e) in
       log (args e) ;;
       raise e).

(** The [for endpoint in endpoints: ... else: ...] of [get_endpoint_id]:
    the first endpoint of that name returns its id ([int] of an integer
    id is that id), the [else] arm runs when the list is exhausted. *)
Fixpoint search_endpoint (endpoints : list EndpointJson) (endpoint_name : string)
    : M World Z :=
  match endpoints with
  | endpoint :: rest =>
      if String.eqb (Name endpoint) endpoint_name
      then ret (Id endpoint)
      else search_endpoint rest endpoint_name
  | [] =>
      let error_msg :=
        "ERROR (get_endpoint_id): Endpoint '" ++ endpoint_name ++ "' not found" in
      log error_msg ;;
      raise (mkExc PlainException error_msg)
  end.

Definition get_endpoint_id (token endpoint_name : string) : M World Z :=
  endpoints <- _get_all_endpoints token ;;
  if (length endpoints =? 0)%nat then
    raise (mkExc PlainException "0 endpoints found.")
  else
    search_endpoint endpoints endpoint_name.

Definition create_stack (token stack_name docker_compose_file : string)
    (endpoint_id : Z) : M World bool :=
  log ("Creating stack - " ++ stack_name) ;;
  compose_file <- open docker_compose_file ;;
  try_except
    (response <- requests (PostStackCreate token stack_name compose_file endpoint_id) ;;
     raise_for_status response ;;
     log ("SUCCESS: " ++ stack_name ++ " stack created") ;;
     ret true)
    isRequestException
    (fun e =>
       let e := set_args e
         ("ERROR (create_stack): '" ++ stack_name ++ "' failed to create. Exception: "
            ++ args e) in
       log (args e) ;;
       ret false).

End PortainerAPI.

(** ** The module's entry point *)

(** [module.params] *)
Record Params := mkParams {
  root_url : string;
  initial_setup : bool;
  admin_username : string;
  admin_password : string;
  endpoint : string;
  stacks : list StackDeclaration
}.

(** How a run ends: [module.exit_json(...)] or [module.fail_json(...)].
    The first [fail_json] of [main] passes no [changed]. *)
Inductive ModuleResult :=
| exit_json (changed : bool) (msg : string)
    (stacks_deployed stacks_failed_to_deploy : string)
| fail_json (changed : option bool) (msg : string).

Section Main.

Context {World : Type}.
Variable remote : Remote World.
Variable params : Params.

(** The body of [for stack in stacks_param], with [created_stacks] as the
    accumulator the source appends to. *)
Fixpoint for_stacks (session_token : string) (endpoint_id : Z)
    (existing_stacks : list string) (stacks_param : list StackDeclaration)
    (created_stacks : list bool) : M World (list bool) :=
  match stacks_param with
  | [] => ret created_stacks
  | stack :: rest =>
      let stack_name := name stack in
      let stack_compose_file := compose_file stack in
      if contains (lower stack_name) existing_stacks then
        warn ("Stack '" ++ stack_name ++ "' already exists, skipping...") ;;
        for_stacks session_token endpoint_id existing_stacks rest created_stacks
      else
        stack_created <- create_stack remote (root_url params) session_token
                           stack_name stack_compose_file endpoint_id ;;
        for_stacks session_token endpoint_id existing_stacks rest
          (created_stacks ++ [stack_created])%list
  end.

(** The [try] block of [main]; its value is [created_stacks]. *)
Definition main_try : M World (list bool) :=
  ping remote (root_url params) ;;
  admin_exists <- check_admin_exists remote (root_url params) ;;
  session_token <-
    (if initial_setup params && negb admin_exists then
       create_admin remote (root_url params)
         (admin_username params) (admin_password params) ;;
       session_token <- create_session remote (root_url params)
                          (admin_username params) (admin_password params) ;;
       create_endpoint remote (root_url params) session_token (endpoint params) ;;
       ret session_token
     else
       create_session remote (root_url params)
         (admin_username params) (admin_password params)) ;;
  endpoint_id <- get_endpoint_id remote (root_url params) session_token
                   (endpoint params) ;;
  existing_stacks <- get_all_stacks remote (root_url params) session_token ;;
  for_stacks session_token endpoint_id existing_stacks (stacks params) [].

(** Steps 1 to 5 of a run, the part of [main_try] before the loop:
    reachability, admin check, bootstrap or login, endpoint resolution,
    stack listing.  [main_try_split] shows that [main_try] is this
    followed by the loop. *)
Definition steps_1_to_5 : M World (string * Z * list string) :=
  ping remote (root_url params) ;;
  admin_exists <- check_admin_exists remote (root_url params) ;;
  session_token <-
    (if initial_setup params && negb admin_exists then
       create_admin remote (root_url params)
         (admin_username params) (admin_password params) ;;
       session_token <- create_session remote (root_url params)
                          (admin_username params) (admin_password params) ;;
       create_endpoint remote (root_url params) session_token (endpoint params) ;;
       ret session_token
     else
       create_session remote (root_url params)
         (admin_username params) (admin_password params)) ;;
  endpoint_id <- get_endpoint_id remote (root_url params) session_token
                   (endpoint params) ;;
  existing_stacks <- get_all_stacks remote (root_url params) session_token ;;
  ret (session_token, endpoint_id, existing_stacks).

Definition main (w : World) : ModuleResult * World * list Event :=
  match stacks params with
  | [] => (fail_json None "No stacks provided in playbook", w, [])
  | _ :: _ =>
      match main_try w with
      | (Raise e, w', t) => (fail_json (Some false) (args e), w', t)
      | (Return created_stacks, w', t) =>
          let changed_status :=
            if (0 <? count true created_stacks)%nat then true else false in
          let message_status :=
            str_nat (length created_stacks) ++ " stacks created" in
          (exit_json changed_status message_status
             (str_nat (count true created_stacks))
             (str_nat (count false created_stacks)), w', t)
      end
  end.

End Main.

(** ** Reading a trace *)

(** The HTTP exchanges of a trace, in order: each request together with
    what came back. *)
Fixpoint exchanges (t : list Event) : list (Request * (Response + string)) :=
  match t with
  | [] => []
  | EvHttp _ r res :: rest => (r, res) :: exchanges rest
  | _ :: rest => exchanges rest
  end.

(** The HTTP requests of a trace, in order. *)
Definition calls (t : list Event) : list Request := map fst (exchanges t).

(** The compose files a run tried to open. *)
Fixpoint opened (t : list Event) : list string :=
  match t with
  | [] => []
  | EvOpen p _ :: rest => p :: opened rest
  | _ :: rest => opened rest
  end.

(** Whether the remote answered, with a status outside 400..599. *)
Definition accepted (result : Response + string) : bool :=
  match result with
  | inl resp =>
      negb ((400 <=? status_code resp)%Z && (status_code resp <? 600)%Z)
  | inr _ => false
  end.

Definition attempt_of (x : Request * (Response + string)) : list (string * bool) :=
  match x with
  | (PostStackCreate _ n _ _, res) => [(n, accepted res)]
  | _ => []
  end.

(** The stack creation requests of a trace: the submitted name and
    whether the remote accepted the request. *)
Definition creation_attempts (t : list Event) : list (string * bool) :=
  flat_map attempt_of (exchanges t).

Definition listing_of (x : Request * (Response + string)) : list string :=
  match x with
  | (GetStacks _, inl resp) =>
      match json resp with StacksPayload l => l | _ => [] end
  | _ => []
  end.

(** The stack names the remote listed in answer to [GET /api/stacks]. *)
Definition listed (t : list Event) : list string :=
  flat_map listing_of (exchanges t).

Definition admin_answer_of (x : Request * (Response + string)) : list bool :=
  match x with
  | (GetAdminCheck, inl resp) => [(status_code resp =? 204)%Z]
  | _ => []
  end.

(** What the admin check answered: [[true]] for status 204, [[false]]
    for another status, nothing when no answer came. *)
Definition admin_answers (t : list Event) : list bool :=
  flat_map admin_answer_of (exchanges t).

Definition admin_init_of (x : Request * (Response + string)) : list bool :=
  match x with
  | (PostAdminInit _ _, res) => [accepted res]
  | _ => []
  end.

(** The admin initialisations of a trace, with whether they succeeded. *)
Definition admin_inits (t : list Event) : list bool :=
  flat_map admin_init_of (exchanges t).

Definition session_of (x : Request * (Response + string)) : list (option string) :=
  match x with
  | (PostAuth _ _, inl resp) =>
      if accepted (inl resp)
      then match json resp with JwtPayload tok => [Some tok] | _ => [None] end
      else [None]
  | (PostAuth _ _, inr _) => [None]
  | _ => []
  end.

(** The session requests of a trace, with the token each obtained. *)
Definition sessions (t : list Event) : list (option string) :=
  flat_map session_of (exchanges t).

Definition is_admin_init (r : Request) : bool :=
  match r with PostAdminInit _ _ => true | _ => false end.

Definition is_endpoint_create (r : Request) : bool :=
  match r with PostEndpoints _ _ => true | _ => false end.

Definition is_session_create (r : Request) : bool :=
  match r with PostAuth _ _ => true | _ => false end.

Definition is_stack_create (r : Request) : bool :=
  match r with PostStackCreate _ _ _ _ => true | _ => false end.

(** A stack-listing or a stack-creation request. *)
Definition is_stack_call (r : Request) : bool :=
  match r with
  | GetStacks _ | PostStackCreate _ _ _ _ => true
  | _ => false
  end.

(** Exchanges that are all stack creation requests. *)
Definition only_creations (x : list (Request * (Response + string))) : Prop :=
  Forall (fun e => is_stack_create (fst e) = true) x.

(** ** Endpoint resolution, in the words of the specification

    [named] is the test of the linear search; the error the specification
    calls [EndpointNotFound] is the plain [Exception] that
    [get_endpoint_id] raises, with one message when the remote lists no
    endpoint at all and another when none has the name. *)

Definition named (endpoint_name : string) (e : EndpointJson) : bool :=
  String.eqb (Name e) endpoint_name.

Definition not_found_msg (endpoint_name : string) : string :=
  "ERROR (get_endpoint_id): Endpoint '" ++ endpoint_name ++ "' not found".

Definition EndpointNotFound (endpoint_name : string) (msg : string) : Prop :=
  msg = "0 endpoints found." \/ msg = not_found_msg endpoint_name.

(** ** The stack reconciler, as a pure classification

    What the loop of [main] decides for each declaration, read off its
    test [stack_name.lower() in existing_stacks]. *)

Definition already_exists (existing_stacks : list string) (s : StackDeclaration) : bool :=
  contains (lower (name s)) existing_stacks.

Definition skipped (existing_stacks : list string) (l : list StackDeclaration) :=
  filter (already_exists existing_stacks) l.

Definition to_create (existing_stacks : list string) (l : list StackDeclaration) :=
  filter (fun s => negb (already_exists existing_stacks s)) l.

(** The comparison as the specification words it: a desired name matches
    a remote name when the two are equal after lowercasing both. *)
Definition matches_ignoring_case (n : string) (existing_stacks : list string) : bool :=
  existsb (fun r => String.eqb (lower r) (lower n)) existing_stacks.

(** ** The bootstrap discipline

    When the admin initialisation and the endpoint creation are called,
    and in which order, read off the trace [t] of a run. *)
Definition bootstrap_discipline (params : Params) (t : list Event) : Prop :=
  let u := admin_username params in
  let p := admin_password params in
  let e := endpoint params in
  (existsb is_admin_init (calls t) = true <->
     initial_setup params = true /\ admin_answers t = [false]) /\
  (existsb is_endpoint_create (calls t) = true <->
     initial_setup params = true /\ admin_answers t = [false] /\
     admin_inits t = [true] /\ exists tok, sessions t = [Some tok]) /\
  (initial_setup params = true -> admin_answers t = [false] ->
     calls t = [GetRoot; GetAdminCheck; PostAdminInit u p] \/
     calls t = [GetRoot; GetAdminCheck; PostAdminInit u p; PostAuth u p] \/
     exists tok rest,
       calls t = ([GetRoot; GetAdminCheck; PostAdminInit u p; PostAuth u p;
                   PostEndpoints tok e] ++ rest)%list /\
       existsb is_admin_init rest = false /\
       existsb is_endpoint_create rest = false /\
       existsb is_session_create rest = false) /\
  (admin_answers t = [true] ->
     exists rest,
       calls t = ([GetRoot; GetAdminCheck; PostAuth u p] ++ rest)%list /\
       existsb is_admin_init rest = false /\
       existsb is_endpoint_create rest = false /\
       existsb is_session_create rest = false).

(** ** A simulated control plane, for concrete runs

    A world that can be computed with: whether the instance is reachable
    and initialised, its endpoints, the names of its stacks as they were
    submitted, and the local compose files.  [accepts] is the remote's
    policy for a stack creation request, given the stacks it has.  The
    admin password must have twelve characters. *)

Record Sim := mkSim {
  sim_up : bool;
  sim_admin : bool;
  sim_endpoints : list EndpointJson;
  sim_stacks : list string;
  sim_files : list (string * FileObj)
}.

Definition answer (code : Z) (why : string) (root : string) (r : Request)
    (p : Payload) : Response :=
  mkResponse code why (url_of root r) p.

Definition sim_send (accepts : list string -> string -> bool)
    (root : string) (r : Request) (w : Sim) : (Response + string) * Sim :=
  if negb (sim_up w) then (inr "Connection refused", w) else
  match r with
  | GetRoot => (inl (answer 200 "OK" root r NoPayload), w)
  | GetAdminCheck =>
      if sim_admin w
      then (inl (answer 204 "No Content" root r NoPayload), w)
      else (inl (answer 404 "Not Found" root r NoPayload), w)
  | PostAdminInit _ p =>
      if sim_admin w
      then (inl (answer 409 "Conflict" root r NoPayload), w)
      else if (String.length p <? 12)%nat
      then (inl (answer 400 "Bad Request" root r NoPayload), w)
      else (inl (answer 200 "OK" root r NoPayload),
            mkSim (sim_up w) true (sim_endpoints w) (sim_stacks w) (sim_files w))
  | PostAuth _ _ =>
      if sim_admin w
      then (inl (answer 200 "OK" root r (JwtPayload "jwt")), w)
      else (inl (answer 422 "Unprocessable Entity" root r NoPayload), w)
  | PostEndpoints _ n =>
      (inl (answer 200 "OK" root r NoPayload),
       mkSim (sim_up w) (sim_admin w)
         (sim_endpoints w ++ [mkEndpoint (Z.of_nat (S (length (sim_endpoints w)))) n])
         (sim_stacks w) (sim_files w))
  | GetEndpoints _ =>
      (inl (answer 200 "OK" root r (EndpointsPayload (sim_endpoints w))), w)
  | GetStacks _ =>
      (inl (answer 200 "OK" root r (StacksPayload (sim_stacks w))), w)
  | PostStackCreate _ n _ _ =>
      if accepts (sim_stacks w) n
      then (inl (answer 200 "OK" root r NoPayload),
            mkSim (sim_up w) (sim_admin w) (sim_endpoints w)
              (sim_stacks w ++ [n]) (sim_files w))
      else (inl (answer 500 "Internal Server Error" root r NoPayload), w)
  end.

Fixpoint lookup_file (path : string) (files : list (string * FileObj))
    : option FileObj :=
  match files with
  | [] => None
  | (p, c) :: rest => if String.eqb path p then Some c else lookup_file path rest
  end.

Definition sim_fopen (path : string) (w : Sim) : (FileObj + string) * Sim :=
  match lookup_file path (sim_files w) with
  | Some c => (inl c, w)
  | None => (inr ("[Errno 2] No such file or directory: '" ++ path ++ "'"), w)
  end.

Definition sim (accepts : list string -> string -> bool) : Remote Sim :=
  mkRemote (sim_send accepts) sim_fopen.

(** Policies: a remote that accepts every creation request, one that
    rejects every request, and one where the stack [web] needs the
    external network that the stack [db] creates. *)
Definition accept_all (_ : list string) (_ : string) : bool := true.
Definition reject_all (_ : list string) (_ : string) : bool := false.
Definition web_needs_db (have : list string) (n : string) : bool :=
  if String.eqb n "web" then contains "db" have else true.

Definition compose_yml : FileObj := "services: {}".

(** An initialised instance with the endpoint [local], the given stacks
    and the compose files of the examples. *)
Definition running (stacks : list string) : Sim :=
  mkSim true true [mkEndpoint 1 "local"] stacks
    [("./a/docker-compose.yml", compose_yml); ("./b/docker-compose.yml", compose_yml)].

(** A fresh instance: reachable, no admin, no endpoint, no stack. *)
Definition fresh : Sim :=
  mkSim true false [] []
    [("./a/docker-compose.yml", compose_yml); ("./b/docker-compose.yml", compose_yml)].

Definition playbook (setup : bool) (l : list StackDeclaration) : Params :=
  mkParams "https://10.0.0.1:9443" setup "admin" "bigsecret123" "local" l.

(** The same playbook with a password the remote refuses. *)
Definition weak_playbook (setup : bool) (l : list StackDeclaration) : Params :=
  mkParams "https://10.0.0.1:9443" setup "admin" "secret" "local" l.

(** An instance that cannot be reached. *)
Definition unreachable : Sim := mkSim false true [] [] [].

Definition stack_a (n : string) : StackDeclaration := mkStack n "./a/docker-compose.yml".
Definition stack_b (n : string) : StackDeclaration := mkStack n "./b/docker-compose.yml".
Definition stack_missing (n : string) : StackDeclaration := mkStack n "./missing.yml".

(** ** Projections of a run *)

Definition outcome {W A} (r : Outcome A * W * list Event) : Outcome A := fst (fst r).
Definition world {W A} (r : Outcome A * W * list Event) : W := snd (fst r).
Definition trace {W A} (r : Outcome A * W * list Event) : list Event := snd r.

(** ** More readers of a trace *)

(** The lines written with [log] and the warnings given with [warn]. *)
Fixpoint logged (t : list Event) : list string :=
  match t with
  | [] => []
  | EvLog m :: rest => m :: logged rest
  | _ :: rest => logged rest
  end.

Fixpoint warned (t : list Event) : list string :=
  match t with
  | [] => []
  | EvWarn m :: rest => m :: warned rest
  | _ :: rest => warned rest
  end.

Definition endpoint_listing_of (x : Request * (Response + string))
    : list EndpointJson :=
  match x with
  | (GetEndpoints _, inl resp) =>
      match json resp with EndpointsPayload l => l | _ => [] end
  | _ => []
  end.

(** The endpoints the remote listed in answer to [GET /api/endpoints]. *)
Definition endpoints_listed (t : list Event) : list EndpointJson :=
  flat_map endpoint_listing_of (exchanges t).

(** The bearer token a request carries, when it carries one. *)
Definition token_of (r : Request) : option string :=
  match r with
  | PostEndpoints tok _ | GetStacks tok | GetEndpoints tok
  | PostStackCreate tok _ _ _ => Some tok
  | _ => None
  end.

(** The text of the [HTTPError] that [raise_for_status] raises. *)
Definition http_error_msg (resp : Response) : string :=
  str_int (status_code resp)
  ++ (if (status_code resp <? 500)%Z then " Client Error: " else " Server Error: ")
  ++ reason resp ++ " for url: " ++ url resp.

(** What a failed exchange reports: the text of the transport exception,
    or of the [HTTPError] for an error status. *)
Definition failure_text (res : Response + string) : string :=
  match res with
  | inl resp => http_error_msg resp
  | inr msg => msg
  end.

(** The decoded body that came back, if a response came back. *)
Definition body_of (res : Response + string) : Payload :=
  match res with
  | inl resp => json resp
  | inr _ => NoPayload
  end.

(** The warning of the loop for a stack it skips. *)
Definition skip_warning (s : StackDeclaration) : string :=
  "Stack '" ++ name s ++ "' already exists, skipping...".

Definition admin_warning : string :=
  "Portainer already initialized, skipping 'initial_setup'...".

(** The operation names that the client writes into its error messages. *)
Definition operations : list string :=
  ["ping"; "check_admin_exists"; "create_admin"; "create_session";
   "create_endpoint"; "_get_all_endpoints"; "get_all_stacks"].

(** The creation request of the loop for a declaration and its file. *)
Definition creation_request (tok : string) (eid : Z)
    (sf : StackDeclaration * FileObj) : Request :=
  PostStackCreate tok (name (fst sf)) (snd sf) eid.

(** The files that could be opened, in order. *)
Fixpoint files_read (t : list Event) : list FileObj :=
  match t with
  | [] => []
  | EvOpen _ (inl f) :: rest => f :: files_read rest
  | _ :: rest => files_read rest
  end.

(** * Properties *)

(** ** The monad *)

Lemma bind_inv {W A B} (m : M W A) (f : A -> M W B) w o w' t :
  bind m f w = (o, w', t) ->
  (exists e, m w = (Raise e, w', t) /\ o = Raise e) \/
  (exists a w1 t1 t2,
      m w = (Return a, w1, t1) /\ f a w1 = (o, w', t2) /\ t = (t1 ++ t2)%list).
Proof.
  unfold bind. destruct (m w) as [[[a|e] w1] t1].
  - destruct (f a w1) as [[o2 w2] t2] eqn:Hf. intros H. inversion H; subst.
    right. exists a, w1, t1, t2. auto.
  - intros H. inversion H; subst. left. exists e. auto.
Qed.

Lemma bind_raise {W A B} (m : M W A) (f : A -> M W B) w e w1 t1 :
  m w = (Raise e, w1, t1) -> bind m f w = (Raise e, w1, t1).
Proof. intros H. unfold bind. rewrite H. reflexivity. Qed.

(** ** Traces *)

Lemma exchanges_app t1 t2 : exchanges (t1 ++ t2) = (exchanges t1 ++ exchanges t2)%list.
Proof.
  induction t1 as [|ev t1 IH]; simpl; [reflexivity|].
  destruct ev; simpl; rewrite IH; reflexivity.
Qed.

Lemma opened_app t1 t2 : opened (t1 ++ t2) = (opened t1 ++ opened t2)%list.
Proof.
  induction t1 as [|ev t1 IH]; simpl; [reflexivity|].
  destruct ev; simpl; rewrite IH; reflexivity.
Qed.

Lemma calls_app t1 t2 : calls (t1 ++ t2) = (calls t1 ++ calls t2)%list.
Proof. unfold calls. rewrite exchanges_app, map_app. reflexivity. Qed.

Lemma creation_attempts_app t1 t2 :
  creation_attempts (t1 ++ t2) = (creation_attempts t1 ++ creation_attempts t2)%list.
Proof. unfold creation_attempts. rewrite exchanges_app, flat_map_app. reflexivity. Qed.

Lemma listed_app t1 t2 : listed (t1 ++ t2) = (listed t1 ++ listed t2)%list.
Proof. unfold listed. rewrite exchanges_app, flat_map_app. reflexivity. Qed.

Arguments accepted : simpl never.
Arguments session_of !x : simpl nomatch.
Arguments String.append : simpl never.

Section Client.

Context {World : Type}.
Variable remote : Remote World.
Variable root : string.

Lemma raise_for_status_cases (resp : Response) (w : World) :
  (accepted (inl resp) = true /\ raise_for_status resp w = (Return tt, w, [])) \/
  (accepted (inl resp) = false /\
   exists msg, raise_for_status resp w = (Raise (mkExc RequestException msg), w, [])).
Proof.
  unfold raise_for_status, accepted.
  destruct (400 <=? status_code resp)%Z eqn:H4;
    destruct (status_code resp <? 500)%Z eqn:H5;
    destruct (500 <=? status_code resp)%Z eqn:H6;
    destruct (status_code resp <? 600)%Z eqn:H7; simpl; try lia;
    first [ left; split; reflexivity
          | right; split; [reflexivity | eexists; reflexivity] ].
Qed.

Ltac run_api :=
  unfold bind, try_except, requests, log, warn, emit, ret, raise,
    json_jwt, json_stack_names, json_endpoints, isRequestException, isException,
    set_args; simpl.

Ltac status resp w :=
  let Ha := fresh "Ha" in let Hr := fresh "Hr" in let msg := fresh "msg" in
  destruct (raise_for_status_cases resp w) as [[Ha Hr]|[Ha [msg Hr]]];
  rewrite Hr; simpl.

Lemma ping_inv w o w1 t :
  ping remote root w = (o, w1, t) ->
  exists res,
    exchanges t = [(GetRoot, res)] /\ opened t = [] /\
    ((o = Return tt /\ accepted res = true) \/
     (exists e, o = Raise e /\ accepted res = false)).
Proof.
  unfold ping. run_api.
  destruct (send remote root GetRoot w) as [[resp|msg] w0]; simpl.
  - status resp w0; intros H; inversion H; subst; clear H;
      exists (inl resp); simpl; repeat split; eauto.
  - intros H; inversion H; subst; clear H.
    exists (inr msg); simpl; repeat split; eauto.
Qed.

Lemma check_admin_exists_inv w o w1 t :
  check_admin_exists remote root w = (o, w1, t) ->
  exists res,
    exchanges t = [(GetAdminCheck, res)] /\ opened t = [] /\
    match res with
    | inl resp => o = Return (status_code resp =? 204)%Z
    | inr msg =>
        o = Raise (mkExc RequestException
              ("ERROR (check_admin_exists): Check if admin exists failed. Exception: "
                 ++ msg))
    end.
Proof.
  unfold check_admin_exists. run_api.
  destruct (send remote root GetAdminCheck w) as [[resp|msg] w0]; simpl.
  - destruct (status_code resp =? 204)%Z eqn:Hs; simpl;
      intros H; inversion H; subst; clear H;
      exists (inl resp); simpl; rewrite ?Hs; repeat split; eauto.
  - intros H; inversion H; subst; clear H.
    exists (inr msg); simpl; repeat split; eauto.
Qed.

Lemma create_admin_inv u p w o w1 t :
  create_admin remote root u p w = (o, w1, t) ->
  exists res,
    exchanges t = [(PostAdminInit u p, res)] /\ opened t = [] /\
    ((o = Return tt /\ accepted res = true) \/
     (exists e, o = Raise e /\ accepted res = false)).
Proof.
  unfold create_admin. run_api.
  destruct (send remote root (PostAdminInit u p) w) as [[resp|msg] w0]; simpl.
  - status resp w0; intros H; inversion H; subst; clear H;
      exists (inl resp); simpl; repeat split; eauto.
  - intros H; inversion H; subst; clear H.
    exists (inr msg); simpl; repeat split; eauto.
Qed.

Lemma create_endpoint_inv tok n w o w1 t :
  create_endpoint remote root tok n w = (o, w1, t) ->
  exists res,
    exchanges t = [(PostEndpoints tok n, res)] /\ opened t = [] /\
    ((o = Return tt /\ accepted res = true) \/
     (exists e, o = Raise e /\ accepted res = false)).
Proof.
  unfold create_endpoint. run_api.
  destruct (send remote root (PostEndpoints tok n) w) as [[resp|msg] w0]; simpl.
  - status resp w0; intros H; inversion H; subst; clear H;
      exists (inl resp); simpl; repeat split; eauto.
  - intros H; inversion H; subst; clear H.
    exists (inr msg); simpl; repeat split; eauto.
Qed.

Lemma create_session_inv u p w o w1 t :
  create_session remote root u p w = (o, w1, t) ->
  exists res,
    exchanges t = [(PostAuth u p, res)] /\ opened t = [] /\
    ((exists tok, o = Return tok /\ session_of (PostAuth u p, res) = [Some tok]) \/
     (exists e, o = Raise e /\ session_of (PostAuth u p, res) = [None])).
Proof.
  unfold create_session. run_api.
  destruct (send remote root (PostAuth u p) w) as [[resp|msg] w0]; simpl.
  - status resp w0.
    + destruct (json resp) eqn:Hj; simpl; intros H; inversion H; subst; clear H;
        exists (inl resp); unfold session_of; simpl; rewrite ?Ha, ?Hj; repeat split; eauto.
    + intros H; inversion H; subst; clear H.
      exists (inl resp); unfold session_of; simpl; rewrite ?Ha; repeat split; eauto.
  - intros H; inversion H; subst; clear H.
    exists (inr msg); unfold session_of; simpl; repeat split; eauto.
Qed.

Lemma get_all_stacks_inv tok w o w1 t :
  get_all_stacks remote root tok w = (o, w1, t) ->
  exists res,
    exchanges t = [(GetStacks tok, res)] /\ opened t = [] /\
    ((exists l, o = Return l /\ listing_of (GetStacks tok, res) = l) \/
     (exists e, o = Raise e)).
Proof.
  unfold get_all_stacks. run_api.
  destruct (send remote root (GetStacks tok) w) as [[resp|msg] w0]; simpl.
  - status resp w0.
    + destruct (json resp) eqn:Hj; simpl; intros H; inversion H; subst; clear H;
        exists (inl resp); simpl; rewrite ?Hj; repeat split; eauto.
    + intros H; inversion H; subst; clear H.
      exists (inl resp); simpl; repeat split; eauto.
  - intros H; inversion H; subst; clear H.
    exists (inr msg); simpl; repeat split; eauto.
Qed.

Lemma search_endpoint_run l nm (w : World) :
  search_endpoint l nm w =
    match find (named nm) l with
    | Some e => (Return (Id e), w, @nil Event)
    | None => (Raise (mkExc PlainException (not_found_msg nm)), w,
               [EvLog (not_found_msg nm)])
    end.
Proof.
  induction l as [|e l IH]; simpl.
  - reflexivity.
  - unfold named at 1. destruct (String.eqb (Name e) nm); [reflexivity|exact IH].
Qed.

Lemma get_endpoint_id_inv tok nm w o w1 t :
  get_endpoint_id remote root tok nm w = (o, w1, t) ->
  exists res,
    exchanges t = [(GetEndpoints tok, res)] /\ opened t = [] /\
    forall resp l,
      res = inl resp -> accepted res = true -> json resp = EndpointsPayload l ->
      o = match find (named nm) l with
          | Some e => Return (Id e)
          | None =>
              Raise (mkExc PlainException
                       (match l with
                        | [] => "0 endpoints found."
                        | _ :: _ => not_found_msg nm
                        end))
          end.
Proof.
  unfold get_endpoint_id, _get_all_endpoints. run_api.
  destruct (send remote root (GetEndpoints tok) w) as [[resp|msg] w0]; simpl.
  - status resp w0.
    + destruct (json resp) as [| |l|] eqn:Hj; simpl;
        try (intros H; inversion H; subst; clear H;
             exists (inl resp); simpl; repeat split; auto;
             intros resp' l' Hr' _ Hj'; inversion Hr'; subst; congruence).
      destruct l as [|e l]; [simpl | cbn [length Nat.eqb]].
      * intros H; inversion H; subst; clear H.
        exists (inl resp); simpl; repeat split; auto.
        intros resp' l' Hr' _ Hj'; inversion Hr'; subst.
        rewrite Hj in Hj'; inversion Hj'; subst. reflexivity.
      * rewrite search_endpoint_run.
        destruct (find (named nm) (e :: l)) as [e'|] eqn:Hf;
          intros H; inversion H; subst; clear H;
          exists (inl resp); simpl; repeat split; auto;
          intros resp' l' Hr' _ Hj'; inversion Hr'; subst;
          rewrite Hj in Hj'; inversion Hj'; subst; rewrite Hf; reflexivity.
    + intros H; inversion H; subst; clear H.
      exists (inl resp); simpl; repeat split; auto.
      intros resp' l' Hr' Hacc _. inversion Hr'; subst. congruence.
  - intros H; inversion H; subst; clear H.
    exists (inr msg); simpl; repeat split; auto.
    intros resp' l' Hr'. discriminate.
Qed.

Lemma create_stack_inv tok n path eid w o w1 t :
  create_stack remote root tok n path eid w = (o, w1, t) ->
  opened t = [path] /\
  ((exists e, o = Raise e /\ exc_class e = OSError /\ exchanges t = []) \/
   (exists f res,
       exchanges t = [(PostStackCreate tok n f eid, res)] /\
       o = Return (accepted res))).
Proof.
  unfold create_stack, open. run_api.
  destruct (fopen remote path w) as [[f|msg] w0]; simpl.
  - destruct (send remote root (PostStackCreate tok n f eid) w0)
      as [[resp|msg] w2]; simpl.
    + status resp w2; intros H; inversion H; subst; clear H; simpl;
        (split; [reflexivity|]); right; exists f, (inl resp);
        rewrite Ha; auto.
    + intros H; inversion H; subst; clear H; simpl.
      split; [reflexivity|]. right. exists f, (inr msg). auto.
  - intros H; inversion H; subst; clear H; simpl.
    split; [reflexivity|]. left. eexists; repeat split; reflexivity.
Qed.

End Client.

Lemma to_create_cons_new E s l :
  already_exists E s = false -> to_create E (s :: l) = s :: to_create E l.
Proof. intros H. unfold to_create. simpl. rewrite H. reflexivity. Qed.

Lemma to_create_cons_old E s l :
  already_exists E s = true -> to_create E (s :: l) = to_create E l.
Proof. intros H. unfold to_create. simpl. rewrite H. reflexivity. Qed.

Lemma classification_total E l :
  length (to_create E l) + length (skipped E l) = length l.
Proof.
  unfold to_create, skipped. induction l as [|s l IH]; simpl; [reflexivity|].
  destruct (already_exists E s); simpl; lia.
Qed.

Section Loop.

Context {World : Type}.
Variable remote : Remote World.
Variable params : Params.

Lemma for_stacks_inv tok eid E l :
  forall acc w o w' t,
    for_stacks remote params tok eid E l acc w = (o, w', t) ->
    only_creations (exchanges t) /\
    ((exists cs,
         o = Return cs /\
         cs = (acc ++ map snd (creation_attempts t))%list /\
         map fst (creation_attempts t) = map name (to_create E l) /\
         opened t = map compose_file (to_create E l)) \/
     (exists e rest,
         o = Raise e /\ exc_class e = OSError /\ rest <> [] /\
         map name (to_create E l) = (map fst (creation_attempts t) ++ rest)%list)).
Proof.
  induction l as [|s l IH]; intros acc w o w' t H.
  - simpl in H. unfold ret in H. inversion H; subst; clear H.
    split; [constructor|]. left. exists acc. simpl.
    rewrite app_nil_r. auto.
  - simpl in H.
    destruct (contains (lower (name s)) E) eqn:Hex.
    + apply bind_inv in H.
      destruct H as [[e [Hw _]]|[[] [w1 [t1 [t2 [Hw [Hk Ht]]]]]]];
        unfold warn, emit in Hw; inversion Hw; subst; clear Hw.
      apply IH in Hk.
      rewrite (to_create_cons_old E s l Hex). simpl. exact Hk.
    + apply bind_inv in H.
      destruct H as [[e [Hc Ho]]|[a [w1 [t1 [t2 [Hc [Hk Ht]]]]]]].
      * apply create_stack_inv in Hc.
        destruct Hc as [_ [[e' [He' [Hcls Hx]]]|[f [res [_ Habs]]]]];
          [|discriminate].
        inversion He'; subst e'; subst o; clear He'.
        split; [rewrite Hx; constructor|].
        right. exists e, (map name (s :: to_create E l)).
        unfold creation_attempts. rewrite Hx.
        rewrite (to_create_cons_new E s l Hex). simpl.
        repeat split; auto. discriminate.
      * apply create_stack_inv in Hc.
        destruct Hc as [Hop [[e' [He' _]]|[f [res [Hx Ha]]]]]; [discriminate|].
        inversion Ha; subst a; clear Ha.
        apply IH in Hk. destruct Hk as [Hall Hk]. subst t.
        rewrite exchanges_app, creation_attempts_app, opened_app, Hop.
        rewrite (to_create_cons_new E s l Hex).
        unfold creation_attempts at 1 3 5. rewrite Hx. simpl.
        split; [constructor; [reflexivity|exact Hall]|].
        destruct Hk as [[cs [Ho [Hcs [Hn Hopn]]]]|[e [rest [Ho [Hcls [Hne Hn]]]]]].
        -- left. exists cs. rewrite Hn, Hopn. repeat split; auto.
           rewrite Hcs, <- app_assoc. reflexivity.
        -- right. exists e, rest. rewrite Hn. repeat split; auto.
Qed.

End Loop.

Lemma only_creations_listed x : only_creations x -> flat_map listing_of x = [].
Proof.
  induction 1 as [|[r res] x Hr _ IH]; simpl; [reflexivity|].
  destruct r; try discriminate Hr. exact IH.
Qed.

Lemma only_creations_admin_answers x :
  only_creations x -> flat_map admin_answer_of x = [].
Proof.
  induction 1 as [|[r res] x Hr _ IH]; simpl; [reflexivity|].
  destruct r; try discriminate Hr. exact IH.
Qed.

Lemma only_creations_admin_inits x :
  only_creations x -> flat_map admin_init_of x = [].
Proof.
  induction 1 as [|[r res] x Hr _ IH]; simpl; [reflexivity|].
  destruct r; try discriminate Hr. exact IH.
Qed.

Lemma only_creations_sessions x : only_creations x -> flat_map session_of x = [].
Proof.
  induction 1 as [|[r res] x Hr _ IH]; simpl; [reflexivity|].
  destruct r; try discriminate Hr. exact IH.
Qed.

Lemma only_creations_calls x (p : Request -> bool) :
  (forall r, is_stack_create r = true -> p r = false) ->
  only_creations x -> existsb p (map fst x) = false.
Proof.
  intros Hp. induction 1 as [|[r res] x Hr _ IH]; simpl; [reflexivity|].
  simpl in Hr. rewrite (Hp r Hr). exact IH.
Qed.

Section Run.

Context {World : Type}.
Variable remote : Remote World.
Variable params : Params.

Ltac crunch :=
  repeat match goal with
         | |- context [match ?f ?w with pair _ _ => _ end] =>
             destruct (f w) as [[[?|?] ?] ?]; simpl
         | |- context [if ?b then _ else _] => destruct b; simpl
         end.

Lemma main_try_split w :
  main_try remote params w =
    bind (steps_1_to_5 remote params)
      (fun x => let '(session_token, endpoint_id, existing_stacks) := x in
                for_stacks remote params session_token endpoint_id existing_stacks
                  (stacks params) []) w.
Proof.
  unfold main_try, steps_1_to_5, bind, ret.
  crunch; rewrite ?app_nil_r, <- ?app_assoc; reflexivity.
Qed.

Ltac invert_run :=
  repeat
    (match goal with
     | H : bind _ _ _ = (_, _, _) |- _ =>
         apply bind_inv in H;
         destruct H as [[? [H ?]]|[? [? [? [? [H [? ?]]]]]]]
     | H : (if ?a && negb ?b then _ else _) _ = (_, _, _) |- _ =>
         destruct a eqn:?; destruct b eqn:?; simpl in H
     | H : ret _ _ = (_, _, _) |- _ => unfold ret in H; inversion H; clear H
     | H : ping _ _ _ = _ |- _ =>
         apply ping_inv in H; destruct H as [? [? [? [[? ?]|[? [? ?]]]]]]
     | H : create_admin _ _ _ _ _ = _ |- _ =>
         apply create_admin_inv in H; destruct H as [? [? [? [[? ?]|[? [? ?]]]]]]
     | H : create_endpoint _ _ _ _ _ = _ |- _ =>
         apply create_endpoint_inv in H; destruct H as [? [? [? [[? ?]|[? [? ?]]]]]]
     | H : check_admin_exists _ _ _ = _ |- _ =>
         apply check_admin_exists_inv in H; destruct H as [[?|?] [? [? ?]]]
     | H : create_session _ _ _ _ _ = _ |- _ =>
         apply create_session_inv in H;
         destruct H as [? [? [? [[? [? ?]]|[? [? ?]]]]]]
     | H : get_endpoint_id _ _ _ _ _ = _ |- _ =>
         apply get_endpoint_id_inv in H; destruct H as [? [? [? ?]]]
     | H : get_all_stacks _ _ _ _ = _ |- _ =>
         apply get_all_stacks_inv in H;
         destruct H as [? [? [? [[? [? ?]]|[? ?]]]]]
     | H : Return _ = Return _ |- _ => inversion H; clear H
     | H : Raise _ = Raise _ |- _ => inversion H; clear H
     | H : Return _ = Raise _ |- _ => discriminate H
     | H : Raise _ = Return _ |- _ => discriminate H
     end; subst).

Ltac read_trace :=
  unfold calls, creation_attempts, listed, admin_answers, admin_inits, sessions;
  rewrite ?exchanges_app, ?opened_app;
  repeat match goal with
         | H : exchanges _ = _ |- _ => rewrite H; clear H
         | H : opened _ = _ |- _ => rewrite H; clear H
         end.

Lemma steps_1_to_5_quiet w o w' t :
  steps_1_to_5 remote params w = (o, w', t) ->
  opened t = [] /\ creation_attempts t = [] /\
  forall tok eid E, o = Return (tok, eid, E) -> listed t = E.
Proof.
  unfold steps_1_to_5. intros H. invert_run; read_trace; simpl;
    repeat split; auto; try discriminate;
    intros tok eid E HE; inversion HE; subst; rewrite app_nil_r; reflexivity.
Qed.

Lemma main_try_inv w o w' t :
  main_try remote params w = (o, w', t) ->
  (exists e, o = Raise e /\ steps_1_to_5 remote params w = (Raise e, w', t)) \/
  (exists tok eid E w0 t0 t1,
      steps_1_to_5 remote params w = (Return (tok, eid, E), w0, t0) /\
      for_stacks remote params tok eid E (stacks params) [] w0 = (o, w', t1) /\
      t = (t0 ++ t1)%list).
Proof.
  rewrite main_try_split. intros H. apply bind_inv in H.
  destruct H as [[e [H Ho]]|[[[tok eid] E] [w0 [t0 [t1 [H [Hk Ht]]]]]]].
  - left. eauto.
  - right. exists tok, eid, E, w0, t0, t1. auto.
Qed.

(** A run that ends with [exit_json]: the report, read against the trace. *)
Lemma main_exit_inv w c m d f w' t :
  main remote params w = (exit_json c m d f, w', t) ->
  let cs := map snd (creation_attempts t) in
  c = (0 <? count true cs)%nat /\
  m = str_nat (length cs) ++ " stacks created" /\
  d = str_nat (count true cs) /\
  f = str_nat (count false cs) /\
  map fst (creation_attempts t) = map name (to_create (listed t) (stacks params)) /\
  opened t = map compose_file (to_create (listed t) (stacks params)).
Proof.
  unfold main. destruct (stacks params) as [|s0 l0] eqn:Hs; [discriminate|].
  destruct (main_try remote params w) as [[[cs|e] w1] t1] eqn:Hm; [|discriminate].
  intros H. inversion H; subst; clear H.
  apply main_try_inv in Hm.
  destruct Hm as [[e [He _]]|[tok [eid [E [w0 [t0 [t1 [Hst [Hl Ht]]]]]]]]];
    [discriminate|].
  apply steps_1_to_5_quiet in Hst. destruct Hst as [Hop [Hca HE]].
  specialize (HE tok eid E eq_refl).
  apply for_stacks_inv in Hl.
  destruct Hl as [Hall [[cs' [Ho [Hcs [Hn Hopn]]]]|[e [rest [Ho _]]]]];
    [|discriminate].
  injection Ho as <-. simpl in Hcs.
  assert (Hlisted : listed t = E).
  { subst t. rewrite listed_app, HE. unfold listed.
    rewrite (only_creations_listed _ Hall). apply app_nil_r. }
  assert (Hatt : creation_attempts t = creation_attempts t1).
  { subst t. rewrite creation_attempts_app, Hca. reflexivity. }
  rewrite Hlisted, Hatt.
  assert (Hopen : opened t = opened t1).
  { subst t. rewrite opened_app, Hop. reflexivity. }
  rewrite Hopen, <- Hcs. rewrite Hs in Hn, Hopn.
  destruct (0 <? count true cs)%nat; repeat split; auto.
Qed.

(** Any run: the stacks submitted for creation are, in order, the first
    declarations that the classification marks for creation. *)
Lemma main_attempts_prefix w res w' t :
  main remote params w = (res, w', t) ->
  creation_attempts t = [] \/
  exists rest,
    map name (to_create (listed t) (stacks params))
    = (map fst (creation_attempts t) ++ rest)%list.
Proof.
  unfold main. destruct (stacks params) as [|s0 l0] eqn:Hs.
  { intros H. inversion H; subst. left. reflexivity. }
  destruct (main_try remote params w) as [[o w1] t1] eqn:Hm.
  intros H. assert (Htt : t = t1) by (destruct o; inversion H; reflexivity).
  subst t1. clear H.
  apply main_try_inv in Hm.
  destruct Hm as [[e [He Hst]]|[tok [eid [E [w0 [t0 [t1 [Hst [Hl Ht]]]]]]]]].
  - left. apply steps_1_to_5_quiet in Hst. tauto.
  - right. apply steps_1_to_5_quiet in Hst. destruct Hst as [Hop [Hca HE]].
    specialize (HE tok eid E eq_refl).
    apply for_stacks_inv in Hl. destruct Hl as [Hall Hl].
    assert (Hlisted : listed t = E).
    { subst t. rewrite listed_app, HE. unfold listed.
      rewrite (only_creations_listed _ Hall). apply app_nil_r. }
    assert (Hatt : creation_attempts t = creation_attempts t1).
    { subst t. rewrite creation_attempts_app, Hca. reflexivity. }
    rewrite Hlisted, Hatt. rewrite Hs in Hl.
    destruct Hl as [[cs' [Ho [Hcs [Hn Hopn]]]]|[e [rest [Ho [_ [_ Hn]]]]]].
    + exists []. rewrite app_nil_r. symmetry. exact Hn.
    + exists rest. exact Hn.
Qed.

Lemma steps_bootstrap w o w' t0 t1 :
  steps_1_to_5 remote params w = (o, w', t0) ->
  only_creations (exchanges t1) ->
  (forall e, o = Raise e -> t1 = []) ->
  bootstrap_discipline params (t0 ++ t1).
Proof.
  unfold steps_1_to_5, bootstrap_discipline. intros H Hall Hraise.
  pose proof (only_creations_admin_answers _ Hall) as Hq1.
  pose proof (only_creations_admin_inits _ Hall) as Hq2.
  pose proof (only_creations_sessions _ Hall) as Hq3.
  pose proof (only_creations_calls _ is_admin_init
                ltac:(intros []; simpl; congruence) Hall) as Hq4.
  pose proof (only_creations_calls _ is_endpoint_create
                ltac:(intros []; simpl; congruence) Hall) as Hq5.
  pose proof (only_creations_calls _ is_session_create
                ltac:(intros []; simpl; congruence) Hall) as Hq6.
  invert_run;
    try (rewrite (Hraise _ eq_refl) in *; clear Hraise);
    read_trace; rewrite ?map_app, ?flat_map_app, ?existsb_app; simpl.
  all: repeat match goal with
              | H : session_of _ = _ |- _ => rewrite H; clear H
              | H : accepted _ = _ |- _ => rewrite H; clear H
              end.
  all: repeat (progress (simpl; rewrite ?Hq1, ?Hq2, ?Hq3, ?Hq4, ?Hq5, ?Hq6)).
  all: repeat split; intros;
    repeat match goal with
           | H : _ /\ _ |- _ => destruct H
           | H : exists _, _ |- _ => destruct H
           end;
    try discriminate; try congruence;
    try solve [ eauto
              | left; reflexivity
              | right; left; reflexivity
              | right; right; do 2 eexists; repeat split;
                try reflexivity; simpl; assumption
              | eexists; repeat split; try reflexivity; simpl; assumption ].
Qed.

Lemma main_trace_cases w :
  snd (main remote params w) = [] \/
  exists o w0 t0 t1,
    steps_1_to_5 remote params w = (o, w0, t0) /\
    only_creations (exchanges t1) /\
    (forall e, o = Raise e -> t1 = []) /\
    snd (main remote params w) = (t0 ++ t1)%list.
Proof.
  unfold main. destruct (stacks params) as [|s0 l0] eqn:Hs; [left; reflexivity|].
  right. destruct (main_try remote params w) as [[o w1] t] eqn:Hm.
  assert (Ht : snd (match o with
                      | Return created_stacks =>
                          (exit_json
                             (if (0 <? count true created_stacks)%nat
                              then true else false)
                             (str_nat (length created_stacks) ++ " stacks created")
                             (str_nat (count true created_stacks))
                             (str_nat (count false created_stacks)), w1, t)
                      | Raise e => (fail_json (Some false) (args e), w1, t)
                      end) = t) by (destruct o; reflexivity).
  rewrite Ht. clear Ht.
  apply main_try_inv in Hm.
  destruct Hm as [[e [He Hst]]|[tok [eid [E [w0 [t0 [t1 [Hst [Hl Ht]]]]]]]]].
  - exists (Raise e), w1, t, []. rewrite app_nil_r.
    repeat split; auto. constructor.
  - apply for_stacks_inv in Hl. destruct Hl as [Hall _].
    exists (Return (tok, eid, E)), w0, t0, t1. repeat split; auto. discriminate.
Qed.

(** How a run of [main] ends, by the stage that decides it. *)
Lemma main_cases w res w' t :
  main remote params w = (res, w', t) ->
  (stacks params = [] /\ t = [] /\
   res = fail_json None "No stacks provided in playbook") \/
  (exists e,
      steps_1_to_5 remote params w = (Raise e, w', t) /\
      res = fail_json (Some false) (args e)) \/
  (exists tok eid E w0 t0 o t1,
      steps_1_to_5 remote params w = (Return (tok, eid, E), w0, t0) /\
      for_stacks remote params tok eid E (stacks params) [] w0 = (o, w', t1) /\
      t = (t0 ++ t1)%list /\
      (forall e, o = Raise e -> res = fail_json (Some false) (args e))).
Proof.
  unfold main. destruct (stacks params) as [|s0 l0] eqn:Hs.
  { intros H. inversion H; subst. left. auto. }
  destruct (main_try remote params w) as [[o w1] t1] eqn:Hm.
  apply main_try_inv in Hm.
  destruct Hm as [[e [He Hst]]|[tok [eid [E [w0 [t0 [t2 [Hst [Hl Ht]]]]]]]]].
  - subst o. intros H. inversion H; subst. right. left. eauto.
  - intros H. right. right. exists tok, eid, E, w0, t0, o, t2.
    rewrite <- Hs.
    destruct o as [cs|e]; inversion H; subst; repeat split; auto;
      intros e' He'; inversion He'; reflexivity.
Qed.

Lemma steps_endpoint_missing w o w' t tok resp l :
  steps_1_to_5 remote params w = (o, w', t) ->
  In (GetEndpoints tok, inl resp) (exchanges t) ->
  accepted (inl resp) = true ->
  json resp = EndpointsPayload l ->
  find (named (endpoint params)) l = None ->
  (exists msg,
      o = Raise (mkExc PlainException msg) /\
      EndpointNotFound (endpoint params) msg) /\
  existsb is_stack_call (calls t) = false.
Proof.
  unfold steps_1_to_5. intros H Hin Hacc Hj Hf.
  invert_run; revert Hin; read_trace; simpl; intros Hin;
    repeat (destruct Hin as [Hin|Hin]; [try discriminate Hin|]);
    try contradiction.
  all: injection Hin as -> ->.
  all: match goal with
       | Hq : forall resp l, inl _ = inl resp -> _ |- _ =>
           specialize (Hq _ _ eq_refl Hacc Hj); rewrite Hf in Hq
       end.
  all: try discriminate.
  all: split; [|reflexivity].
  all: match goal with
       | Hq : Raise ?a = Raise ?b |- _ =>
           assert (Hab : a = b) by congruence; clear Hq; subst a
       end.
  all: eexists; split; [reflexivity|].
  all: unfold EndpointNotFound; destruct l; [left|right]; reflexivity.
Qed.

End Run.

(** ** Single operations *)

(** C9: [check_admin_exists] (the specification's [isAdminInitialized]):
    when the transport raises, the call raises that exception with the
    message rewritten to the check-failed text; when a response comes
    back, whatever its status, the call returns [true] exactly when the
    status code is 204 and [false] otherwise. *)
Theorem check_admin_exists_answer {World : Type} (remote : Remote World)
    (root : string) (w : World) :
  match fst (send remote root GetAdminCheck w) with
  | inr msg =>
      outcome (check_admin_exists remote root w) =
        Raise (mkExc RequestException
                 ("ERROR (check_admin_exists): Check if admin exists failed. Exception: "
                    ++ msg))
  | inl resp =>
      outcome (check_admin_exists remote root w)
        = Return (status_code resp =? 204)%Z /\
      (outcome (check_admin_exists remote root w) = Return true
         <-> status_code resp = 204%Z)
  end.
Proof.
  unfold check_admin_exists, bind, try_except, requests, log, warn, emit, ret,
    raise, isException, set_args, outcome.
  simpl. destruct (send remote root GetAdminCheck w) as [[resp|msg] w0]; simpl.
  - destruct (status_code resp =? 204)%Z eqn:Hs; simpl.
    + split; [reflexivity|]. apply Z.eqb_eq in Hs. tauto.
    + split; [reflexivity|]. apply Z.eqb_neq in Hs.
      split; [discriminate|contradiction].
  - reflexivity.
Qed.

(** [create_stack] absorbs every failure of its HTTP request: once the
    compose file is open it returns a boolean, [true] exactly when the
    remote accepted the request. *)
Lemma create_stack_absorbs_request_failure {World : Type} (remote : Remote World)
    (root tok n path : string) (eid : Z) (w : World) (f : FileObj) (w0 : World) :
  fopen remote path w = (inl f, w0) ->
  outcome (create_stack remote root tok n path eid w)
  = Return (accepted (fst (send remote root (PostStackCreate tok n f eid) w0))).
Proof.
  intros Hf.
  unfold create_stack, open, bind, try_except, requests, log, emit, ret,
    isRequestException, set_args, outcome.
  simpl. rewrite Hf. simpl.
  destruct (send remote root (PostStackCreate tok n f eid) w0) as [[resp|msg] w1];
    simpl; [|reflexivity].
  destruct (raise_for_status_cases resp w1) as [[Ha Hr]|[Ha [msg Hr]]];
    rewrite Hr, Ha; reflexivity.
Qed.

(** [create_stack] does not absorb a failure to open the compose file:
    the [OSError] of [open] leaves the function. *)
Lemma create_stack_raises_open_failure {World : Type} (remote : Remote World)
    (root tok n path : string) (eid : Z) (w : World) (msg : string) (w0 : World) :
  fopen remote path w = (inr msg, w0) ->
  outcome (create_stack remote root tok n path eid w) = Raise (mkExc OSError msg).
Proof.
  intros Hf. unfold create_stack, open, bind, log, emit, outcome.
  simpl. rewrite Hf. reflexivity.
Qed.

Lemma find_none_named nm l :
  (forall e, In e l -> Name e <> nm) -> find (named nm) l = None.
Proof.
  induction l as [|e l IH]; intros H; simpl; [reflexivity|].
  unfold named at 1. destruct (String.eqb (Name e) nm) eqn:He.
  - apply String.eqb_eq in He. exfalso. apply (H e); simpl; auto.
  - apply IH. intros x Hx. apply H. simpl; auto.
Qed.

Lemma find_first_named nm before e after :
  (forall x, In x before -> Name x <> nm) -> Name e = nm ->
  find (named nm) (before ++ e :: after) = Some e.
Proof.
  intros Hb He. induction before as [|x before IH]; simpl.
  - unfold named. rewrite He, String.eqb_refl. reflexivity.
  - unfold named at 1. destruct (String.eqb (Name x) nm) eqn:Hx.
    + apply String.eqb_eq in Hx. exfalso. apply (Hb x); simpl; auto.
    + apply IH. intros y Hy. apply Hb. simpl; auto.
Qed.

(** C8: endpoint-id resolution.  [get_endpoint_id] sends exactly one
    request, the endpoint listing, and searches the listed endpoints in
    order: the id of the first endpoint with the configured name is
    returned; when no listed endpoint has that name it raises the
    endpoint-not-found exception.  In a run of [main] where the listing
    contains no endpoint of the configured name, the run ends in
    [fail_json] with that error and its trace holds no stack-listing
    request, no stack-creation request and no opened compose file. *)
Theorem endpoint_resolution {World : Type} (remote : Remote World) :
  (forall root tok nm w,
      exists res,
        exchanges (trace (get_endpoint_id remote root tok nm w))
        = [(GetEndpoints tok, res)] /\
        forall resp l,
          res = inl resp -> accepted res = true ->
          json resp = EndpointsPayload l ->
          (forall before e after,
              l = (before ++ e :: after)%list ->
              (forall x, In x before -> Name x <> nm) -> Name e = nm ->
              outcome (get_endpoint_id remote root tok nm w) = Return (Id e)) /\
          ((forall e, In e l -> Name e <> nm) ->
           exists msg,
             outcome (get_endpoint_id remote root tok nm w)
             = Raise (mkExc PlainException msg) /\
             EndpointNotFound nm msg)) /\
  (forall params w tok resp l,
      In (GetEndpoints tok, inl resp) (exchanges (snd (main remote params w))) ->
      accepted (inl resp) = true ->
      json resp = EndpointsPayload l ->
      (forall e, In e l -> Name e <> endpoint params) ->
      (exists msg,
          fst (fst (main remote params w)) = fail_json (Some false) msg /\
          EndpointNotFound (endpoint params) msg) /\
      existsb is_stack_call (calls (snd (main remote params w))) = false /\
      opened (snd (main remote params w)) = []).
Proof.
  split.
  - intros root tok nm w.
    destruct (get_endpoint_id remote root tok nm w) as [[o w1] t] eqn:Hg.
    apply get_endpoint_id_inv in Hg. destruct Hg as [res [Hx [_ Hres]]].
    exists res. split; [exact Hx|].
    intros resp l Hr Ha Hj. specialize (Hres resp l Hr Ha Hj).
    unfold outcome; simpl. split.
    + intros before e after Hl Hb He. subst l.
      rewrite (find_first_named nm before e after Hb He) in Hres. exact Hres.
    + intros Hn. rewrite (find_none_named nm l Hn) in Hres.
      eexists. split; [exact Hres|].
      unfold EndpointNotFound. destruct l; [left|right]; reflexivity.
  - intros params w tok resp l Hin Ha Hj Hn.
    pose proof (find_none_named _ l Hn) as Hf.
    destruct (main remote params w) as [[res w'] t] eqn:Hm. simpl in *.
    apply main_cases in Hm.
    destruct Hm as [[_ [Ht _]]|[[e [Hst Hres]]|
                    [tk [eid [E [w0 [t0 [o [t1 [Hst [Hl [Ht _]]]]]]]]]]]].
    + subst t. contradiction.
    + pose proof (steps_1_to_5_quiet _ _ _ _ _ _ Hst) as [Hop _].
      destruct (steps_endpoint_missing _ _ _ _ _ _ _ _ _ Hst Hin Ha Hj Hf)
        as [[msg [Hmsg Hnf]] Hcalls].
      injection Hmsg as ->. subst res. simpl. eauto.
    + exfalso. apply for_stacks_inv in Hl. destruct Hl as [Hall _].
      subst t. rewrite exchanges_app in Hin. apply in_app_or in Hin.
      destruct Hin as [Hin|Hin].
      * destruct (steps_endpoint_missing _ _ _ _ _ _ _ _ _ Hst Hin Ha Hj Hf)
          as [[msg [Hmsg _]] _].
        discriminate Hmsg.
      * unfold only_creations in Hall. rewrite Forall_forall in Hall.
        specialize (Hall _ Hin). discriminate Hall.
Qed.

(** ** A whole run *)

(** C7: an exception raised in steps 1 to 5 aborts the run: [main] ends
    in [fail_json] with [changed=False] and the exception's message, on
    the trace of the steps alone, which holds no stack creation request
    and no opened compose file; [fail_json] carries no counts.  When it
    is the reachability check that raises, the only request of the run
    is that check. *)
Theorem steps_1_to_5_failure_aborts {World : Type} (remote : Remote World)
    (params : Params) (w : World) (e : Exc) (w' : World) (t : list Event) :
  stacks params <> [] ->
  steps_1_to_5 remote params w = (Raise e, w', t) ->
  main remote params w = (fail_json (Some false) (args e), w', t) /\
  creation_attempts t = [] /\
  opened t = [] /\
  (forall e0 w0 t0,
      ping remote (root_url params) w = (Raise e0, w0, t0) ->
      calls t = [GetRoot]).
Proof.
  intros Hne Hst.
  pose proof (steps_1_to_5_quiet _ _ _ _ _ _ Hst) as [Hop [Hca _]].
  repeat split; auto.
  - unfold main. destruct (stacks params) as [|s0 l0]; [congruence|].
    rewrite main_try_split, (bind_raise _ _ _ _ _ _ Hst). reflexivity.
  - intros e0 w0 t0 Hp.
    assert (Hst' : steps_1_to_5 remote params w = (Raise e0, w0, t0)).
    { unfold steps_1_to_5. apply bind_raise. exact Hp. }
    rewrite Hst in Hst'. injection Hst' as _ _ ->.
    apply ping_inv in Hp. destruct Hp as [res [Hx _]].
    unfold calls. rewrite Hx. reflexivity.
Qed.

Lemma count_split l : length l = count true l + count false l.
Proof.
  induction l as [|b l IH]; simpl; [reflexivity|].
  destruct b; simpl; lia.
Qed.

Lemma count_true_pos (a : list (string * bool)) :
  (0 <? count true (map snd a))%nat = true <-> exists n, In (n, true) a.
Proof.
  induction a as [|[n b] a IH]; simpl.
  - split; [discriminate|intros [n []]].
  - destruct b; simpl.
    + split; [intros _; exists n; auto|reflexivity].
    + rewrite IH. split.
      * intros [m Hm]. exists m. auto.
      * intros [m [Hm|Hm]]; [discriminate|exists m; exact Hm].
Qed.

Lemma already_exists_by_name E s s' :
  name s = name s' -> already_exists E s = already_exists E s'.
Proof. unfold already_exists. intros ->. reflexivity. Qed.

(** A declaration that the test of the loop finds among the existing
    stacks is not among the names marked for creation. *)
Lemma skipped_not_to_create E l s :
  already_exists E s = true -> ~ In (name s) (map name (to_create E l)).
Proof.
  intros Hs Hin. apply in_map_iff in Hin. destruct Hin as [s' [Hn Hin]].
  unfold to_create in Hin. apply filter_In in Hin. destruct Hin as [_ Hneg].
  rewrite (already_exists_by_name E s' s Hn), Hs in Hneg. discriminate.
Qed.

(** C4: on a successful run the [changed] flag is true exactly when at
    least one stack creation request was accepted; the two counts are the
    numbers of accepted and of refused creation requests; a skipped stack
    is never submitted, so it enters neither the flag nor the counts; and
    when the only attempt of the run failed, whatever was skipped, the
    report is [stacks_deployed = 0], [stacks_failed_to_deploy = 1],
    [changed = False]. *)
Theorem changed_iff_created {World : Type} (remote : Remote World)
    (params : Params) (w : World) (c : bool) (m d f : string) (w' : World)
    (t : list Event) :
  main remote params w = (exit_json c m d f, w', t) ->
  (c = true <-> exists n, In (n, true) (creation_attempts t)) /\
  d = str_nat (count true (map snd (creation_attempts t))) /\
  f = str_nat (count false (map snd (creation_attempts t))) /\
  (forall s, In s (skipped (listed t) (stacks params)) ->
             ~ In (name s) (map fst (creation_attempts t))) /\
  (map snd (creation_attempts t) = [false] -> c = false /\ d = "0" /\ f = "1").
Proof.
  intros Hm. apply main_exit_inv in Hm.
  destruct Hm as [Hc [_ [Hd [Hf [Hn _]]]]].
  split; [|split; [exact Hd|split; [exact Hf|split]]].
  - rewrite Hc. apply count_true_pos.
  - intros s Hs. rewrite Hn. apply skipped_not_to_create.
    unfold skipped in Hs. apply filter_In in Hs. tauto.
  - intros Hone. rewrite Hone in Hc, Hd, Hf. auto.
Qed.

(** C10: on a successful run the message is the number of creation
    requests of the run, accepted and refused together, followed by
    [" stacks created"]; that number is the length of the desired list
    less the skipped stacks, and it is larger than [stacks_deployed]
    exactly when at least one creation request was refused. *)
Theorem message_counts_attempts {World : Type} (remote : Remote World)
    (params : Params) (w : World) (c : bool) (m d f : string) (w' : World)
    (t : list Event) :
  main remote params w = (exit_json c m d f, w', t) ->
  m = str_nat (length (creation_attempts t)) ++ " stacks created" /\
  length (creation_attempts t)
  = count true (map snd (creation_attempts t))
    + count false (map snd (creation_attempts t)) /\
  length (creation_attempts t) + length (skipped (listed t) (stacks params))
  = length (stacks params) /\
  d = str_nat (count true (map snd (creation_attempts t))) /\
  f = str_nat (count false (map snd (creation_attempts t))) /\
  (count true (map snd (creation_attempts t)) < length (creation_attempts t)
   <-> 0 < count false (map snd (creation_attempts t))).
Proof.
  intros Hm. apply main_exit_inv in Hm.
  destruct Hm as [_ [Hmsg [Hd [Hf [Hn _]]]]].
  pose proof (count_split (map snd (creation_attempts t))) as Hsplit.
  rewrite length_map in Hsplit, Hmsg.
  repeat split; auto; try lia.
  rewrite <- (classification_total (listed t) (stacks params)).
  rewrite <- (length_map fst (creation_attempts t)), Hn, length_map. reflexivity.
Qed.



(** C6, as the code has it: the admin initialisation is requested
    exactly when initial setup was asked for and the admin check answered
    "not initialised"; the endpoint creation is requested exactly when, on
    top of that, the admin initialisation was accepted and the session
    request after it obtained a token, an exception in either ending the
    run; the requests come in the order admin initialisation, session,
    endpoint creation, and no other session, admin initialisation or
    endpoint creation follows; when the admin check answered
    "initialised" the run goes straight from the check to its one session
    request and requests neither admin initialisation nor endpoint
    creation. *)
Theorem bootstrap_calls {World : Type} (remote : Remote World)
    (params : Params) (w : World) :
  let t := snd (main remote params w) in
  let u := admin_username params in
  let p := admin_password params in
  let e := endpoint params in
  (existsb is_admin_init (calls t) = true <->
     initial_setup params = true /\ admin_answers t = [false]) /\
  (existsb is_endpoint_create (calls t) = true <->
     initial_setup params = true /\ admin_answers t = [false] /\
     admin_inits t = [true] /\ exists tok, sessions t = [Some tok]) /\
  (initial_setup params = true -> admin_answers t = [false] ->
     calls t = [GetRoot; GetAdminCheck; PostAdminInit u p] \/
     calls t = [GetRoot; GetAdminCheck; PostAdminInit u p; PostAuth u p] \/
     exists tok rest,
       calls t = ([GetRoot; GetAdminCheck; PostAdminInit u p; PostAuth u p;
                   PostEndpoints tok e] ++ rest)%list /\
       existsb is_admin_init rest = false /\
       existsb is_endpoint_create rest = false /\
       existsb is_session_create rest = false) /\
  (admin_answers t = [true] ->
     exists rest,
       calls t = ([GetRoot; GetAdminCheck; PostAuth u p] ++ rest)%list /\
       existsb is_admin_init rest = false /\
       existsb is_endpoint_create rest = false /\
       existsb is_session_create rest = false).
Proof.
  change (bootstrap_discipline params (snd (main remote params w))).
  destruct (main_trace_cases remote params w)
    as [Ht|[o [w0 [t0 [t1 [Hst [Hall [Hr Ht]]]]]]]]; rewrite Ht.
  - unfold bootstrap_discipline. simpl.
    repeat split; intros;
      repeat match goal with H : _ /\ _ |- _ => destruct H end; discriminate.
  - eapply steps_bootstrap; eauto.
Qed.

(** ** The skip test and the specification's comparison *)

(** Where the remote lists only lowercase names the test of the loop is
    the case-insensitive comparison of the specification. *)
Lemma already_exists_lowercase_remote E s :
  (forall r, In r E -> lower r = r) ->
  already_exists E s = matches_ignoring_case (name s) E.
Proof.
  unfold already_exists, matches_ignoring_case.
  induction E as [|r E IH]; intros Hlow; simpl; [reflexivity|].
  rewrite (Hlow r) by (simpl; auto).
  rewrite (String.eqb_sym r (lower (name s))).
  destruct (String.eqb (lower (name s)) r); simpl; [reflexivity|].
  apply IH. intros x Hx. apply Hlow. simpl; auto.
Qed.

(** In every run, a declaration whose lowercased name the remote lists is
    not submitted for creation. *)
Lemma skipped_never_submitted {World : Type} (remote : Remote World)
    (params : Params) (w : World) res w' t s :
  main remote params w = (res, w', t) ->
  already_exists (listed t) s = true ->
  ~ In (name s) (map fst (creation_attempts t)).
Proof.
  intros Hm Hs Hin.
  destruct (main_attempts_prefix _ _ _ _ _ _ Hm) as [Hnil|[rest Hpre]].
  - rewrite Hnil in Hin. contradiction.
  - apply (skipped_not_to_create (listed t) (stacks params) s Hs).
    rewrite Hpre. apply in_or_app. auto.
Qed.

(** ** Concrete runs *)


(** C2: the failing input.  The compose file of the second declaration
    does not exist: [create_stack] raises the [OSError] of [open] instead
    of returning [False], and the run, which had already created [Stack1]
    on the remote, ends in [fail_json] with [changed=False]; [Stack3] is
    never processed. *)
Theorem unreadable_compose_file_raises :
  let r := main (sim accept_all)
             (playbook false [stack_a "Stack1"; stack_missing "Stack2";
                              stack_b "Stack3"])
             (running []) in
  outcome (create_stack (sim accept_all) "https://10.0.0.1:9443" "jwt" "Stack2"
             "./missing.yml" 1 (running []))
  = Raise (mkExc OSError "[Errno 2] No such file or directory: './missing.yml'") /\
  fst (fst r)
  = fail_json (Some false) "[Errno 2] No such file or directory: './missing.yml'" /\
  sim_stacks (snd (fst r)) = ["Stack1"] /\
  opened (snd r) = ["./a/docker-compose.yml"; "./missing.yml"].
Proof. vm_compute. repeat split. Qed.

(** C3: the failing input.  The run passes steps 1 to 5 and enters the
    loop over three declarations; the loop is left by the exception of the
    second one, so one stack is created, none is skipped, none is counted
    as failed, and two declarations are not classified at all. *)
Theorem aborted_loop_leaves_stacks_unclassified :
  let p := playbook false [stack_a "Stack1"; stack_missing "Stack2";
                           stack_b "Stack3"] in
  let r := main (sim accept_all) p (running []) in
  outcome (steps_1_to_5 (sim accept_all) p (running []))
  = Return ("jwt", 1%Z, []) /\
  fst (fst r)
  = fail_json (Some false) "[Errno 2] No such file or directory: './missing.yml'" /\
  count true (map snd (creation_attempts (snd r))) = 1 /\
  count false (map snd (creation_attempts (snd r))) = 0 /\
  length (skipped (listed (snd r)) (stacks p)) = 0 /\
  length (stacks p) = 3.
Proof. vm_compute. repeat split. Qed.


(** C6: the counterexample.  Initial setup is requested and the admin
    check answers "not initialised", but the remote refuses the admin
    password: [create_admin] raises, the run ends, and the endpoint
    creation is never requested. *)
Lemma endpoint_not_created_after_refused_admin_init :
  let p := weak_playbook true [stack_a "Stack1"] in
  let t := snd (main (sim accept_all) p fresh) in
  ~ (existsb is_endpoint_create (calls t) = true <->
     initial_setup p = true /\ admin_answers t = [false]).
Proof.
  vm_compute. intros [_ H]. specialize (H (conj eq_refl eq_refl)). discriminate H.
Qed.

(** ** The theorems at concrete runs *)

(** The scenario of the specification: [Stack1] exists as [stack1] and is
    skipped, the creation of [Stack2] is refused. *)
Lemma changed_iff_created_witness :
  let r := main (sim reject_all)
             (playbook false [stack_a "Stack1"; stack_b "Stack2"])
             (running ["stack1"]) in
  main (sim reject_all) (playbook false [stack_a "Stack1"; stack_b "Stack2"])
    (running ["stack1"])
  = (exit_json false "1 stacks created" "0" "1", snd (fst r), snd r) /\
  (false = true <-> exists n, In (n, true) (creation_attempts (snd r))) /\
  ~ In "Stack1" (map fst (creation_attempts (snd r))).
Proof.
  intros r.
  assert (Hrun : main (sim reject_all)
                   (playbook false [stack_a "Stack1"; stack_b "Stack2"])
                   (running ["stack1"])
                 = (exit_json false "1 stacks created" "0" "1",
                    snd (fst r), snd r)) by (vm_compute; reflexivity).
  destruct (changed_iff_created _ _ _ _ _ _ _ _ _ Hrun)
    as [Hc [_ [_ [Hskip _]]]].
  split; [exact Hrun|]. split; [exact Hc|].
  apply (Hskip (stack_a "Stack1")). vm_compute. auto.
Defined.

(** A run with one refused and one accepted creation: the message says
    two, [stacks_deployed] says one. *)
Lemma message_counts_attempts_witness :
  let r := main (sim web_needs_db) (playbook false [stack_a "web"; stack_b "db"])
             (running []) in
  main (sim web_needs_db) (playbook false [stack_a "web"; stack_b "db"])
    (running [])
  = (exit_json true "2 stacks created" "1" "1", snd (fst r), snd r) /\
  "2 stacks created"
  = str_nat (length (creation_attempts (snd r))) ++ " stacks created" /\
  (count true (map snd (creation_attempts (snd r)))
   < length (creation_attempts (snd r))
   <-> 0 < count false (map snd (creation_attempts (snd r)))).
Proof.
  intros r.
  assert (Hrun : main (sim web_needs_db)
                   (playbook false [stack_a "web"; stack_b "db"]) (running [])
                 = (exit_json true "2 stacks created" "1" "1",
                    snd (fst r), snd r)) by (vm_compute; reflexivity).
  destruct (message_counts_attempts _ _ _ _ _ _ _ _ _ Hrun)
    as [Hm [_ [_ [_ [_ Hlt]]]]].
  split; [exact Hrun|]. split; [exact Hm|exact Hlt].
Defined.


(** A fresh instance and a playbook that asks for initial setup: the
    hypotheses of the ordering part hold and the five calls come in
    order. *)
Lemma bootstrap_calls_witness :
  let p := playbook true [stack_a "StackA"; stack_b "StackB"] in
  let t := snd (main (sim accept_all) p fresh) in
  initial_setup p = true /\ admin_answers t = [false] /\
  (calls t = [GetRoot; GetAdminCheck; PostAdminInit "admin" "bigsecret123"] \/
   calls t = [GetRoot; GetAdminCheck; PostAdminInit "admin" "bigsecret123";
              PostAuth "admin" "bigsecret123"] \/
   exists tok rest,
     calls t = ([GetRoot; GetAdminCheck; PostAdminInit "admin" "bigsecret123";
                 PostAuth "admin" "bigsecret123";
                 PostEndpoints tok "local"] ++ rest)%list /\
     existsb is_admin_init rest = false /\
     existsb is_endpoint_create rest = false /\
     existsb is_session_create rest = false).
Proof.
  intros p t.
  assert (Hs : initial_setup p = true) by reflexivity.
  assert (Ha : admin_answers t = [false]) by (vm_compute; reflexivity).
  destruct (bootstrap_calls (sim accept_all) p fresh) as [_ [_ [Horder _]]].
  split; [exact Hs|]. split; [exact Ha|]. exact (Horder Hs Ha).
Defined.

(** An instance that cannot be reached: the run stops at the first
    request. *)
Lemma steps_1_to_5_failure_aborts_witness :
  let p := playbook false [stack_a "Stack1"] in
  let e := mkExc RequestException "ERROR (ping). Exception: Connection refused" in
  let t := snd (main (sim accept_all) p unreachable) in
  stacks p <> [] /\
  steps_1_to_5 (sim accept_all) p unreachable = (Raise e, unreachable, t) /\
  main (sim accept_all) p unreachable
  = (fail_json (Some false) "ERROR (ping). Exception: Connection refused",
     unreachable, t) /\
  creation_attempts t = [] /\ opened t = [] /\ calls t = [GetRoot].
Proof.
  intros p e t.
  assert (Hne : stacks p <> []) by discriminate.
  assert (Hst : steps_1_to_5 (sim accept_all) p unreachable
                = (Raise e, unreachable, t)) by (vm_compute; reflexivity).
  destruct (steps_1_to_5_failure_aborts _ _ _ _ _ _ Hne Hst)
    as [Hm [Hca [Hop Hping]]].
  split; [exact Hne|]. split; [exact Hst|]. split; [exact Hm|].
  split; [exact Hca|]. split; [exact Hop|].
  apply (Hping e unreachable t). vm_compute. reflexivity.
Defined.

(** An instance whose only endpoint is [primary], asked for [local]; and
    the resolution of [local] on an instance that has it. *)
Lemma endpoint_resolution_witness :
  let p := playbook false [stack_a "Stack1"] in
  let w := mkSim true true [mkEndpoint 1 "primary"] [] [] in
  let r := main (sim accept_all) p w in
  outcome (get_endpoint_id (sim accept_all) "https://10.0.0.1:9443" "jwt" "local"
             (running []))
  = Return 1%Z /\
  (exists msg,
      fst (fst r) = fail_json (Some false) msg /\ EndpointNotFound "local" msg) /\
  existsb is_stack_call (calls (snd r)) = false /\
  opened (snd r) = [].
Proof.
  intros p w r. split.
  - destruct (proj1 (endpoint_resolution (sim accept_all))
                "https://10.0.0.1:9443" "jwt" "local" (running []))
      as [res [Hx Hres]].
    vm_compute in Hx. injection Hx as Hx.
    destruct (Hres _ [mkEndpoint 1 "local"] (eq_sym Hx)) as [Hfound _].
    + rewrite <- Hx. vm_compute. reflexivity.
    + reflexivity.
    + apply (Hfound [] (mkEndpoint 1 "local") []).
      * reflexivity.
      * intros x [].
      * reflexivity.
  - apply (proj2 (endpoint_resolution (sim accept_all)) p w "jwt"
             (answer 200 "OK" "https://10.0.0.1:9443" (GetEndpoints "jwt")
                (EndpointsPayload [mkEndpoint 1 "primary"]))
             [mkEndpoint 1 "primary"]).
    + vm_compute. auto 10.
    + vm_compute. reflexivity.
    + reflexivity.
    + intros e0 [<-|[]]. discriminate.
Defined.

(** * More of the module *)

(** ** The client operations, outcome by outcome *)

Section Operations.

Context {World : Type}.
Variable remote : Remote World.
Variable root : string.

Lemma raise_for_status_eq (resp : Response) (w : World) :
  raise_for_status resp w
  = (if accepted (inl resp) then Return tt
     else Raise (mkExc RequestException (http_error_msg resp)), w, []).
Proof.
  unfold raise_for_status, accepted, http_error_msg.
  destruct (400 <=? status_code resp)%Z eqn:H4;
    destruct (status_code resp <? 500)%Z eqn:H5;
    destruct (500 <=? status_code resp)%Z eqn:H6;
    destruct (status_code resp <? 600)%Z eqn:H7; simpl; try lia; reflexivity.
Qed.

Ltac run_op :=
  unfold bind, try_except, requests, log, warn, emit, ret, raise,
    json_jwt, json_stack_names, json_endpoints, isRequestException, isException,
    set_args; simpl.

Ltac by_status resp w :=
  rewrite (raise_for_status_eq resp w);
  destruct (accepted (inl resp)) eqn:?; simpl; try reflexivity.

Lemma ping_eq (w : World) :
  ping remote root w =
    let res := fst (send remote root GetRoot w) in
    let w1 := snd (send remote root GetRoot w) in
    if accepted res then (Return tt, w1, [EvHttp root GetRoot res])
    else
      let msg := "ERROR (ping). Exception: " ++ failure_text res in
      (Raise (mkExc RequestException msg), w1,
       [EvHttp root GetRoot res; EvLog msg;
        EvWarn "Cannot reach portainer - check IP and port."]).
Proof.
  unfold ping. run_op.
  destruct (send remote root GetRoot w) as [[resp|msg] w1]; simpl.
  - by_status resp w1.
  - reflexivity.
Qed.

Lemma create_admin_eq (u p : string) (w : World) :
  create_admin remote root u p w =
    let res := fst (send remote root (PostAdminInit u p) w) in
    let w1 := snd (send remote root (PostAdminInit u p) w) in
    let req := EvHttp root (PostAdminInit u p) res in
    let start := EvLog ("Changing password for admin user '" ++ u ++ "'") in
    if accepted res
    then (Return tt, w1, [start; req; EvLog "Success: admin password changed"])
    else
      let msg := "ERROR (create_admin): Admin init failed for user '" ++ u
                 ++ "'. Exception: " ++ failure_text res in
      (Raise (mkExc RequestException msg), w1, [start; req; EvLog msg]).
Proof.
  unfold create_admin. run_op.
  destruct (send remote root (PostAdminInit u p) w) as [[resp|msg] w1]; simpl.
  - by_status resp w1.
  - reflexivity.
Qed.

Lemma create_endpoint_eq (tok n : string) (w : World) :
  create_endpoint remote root tok n w =
    let res := fst (send remote root (PostEndpoints tok n) w) in
    let w1 := snd (send remote root (PostEndpoints tok n) w) in
    let req := EvHttp root (PostEndpoints tok n) res in
    let start := EvLog ("Creating endpoint " ++ n) in
    if accepted res
    then (Return tt, w1,
          [start; req; EvLog ("Success: endpoint '" ++ n ++ "' created")])
    else
      let msg := "ERROR (create_endpoint): failed to create endpoint '" ++ n
                 ++ "'. Exception: " ++ failure_text res in
      (Raise (mkExc RequestException msg), w1, [start; req; EvLog msg]).
Proof.
  unfold create_endpoint. run_op.
  destruct (send remote root (PostEndpoints tok n) w) as [[resp|msg] w1]; simpl.
  - by_status resp w1.
  - reflexivity.
Qed.

Lemma create_session_eq (u p : string) (w : World) :
  create_session remote root u p w =
    let res := fst (send remote root (PostAuth u p) w) in
    let w1 := snd (send remote root (PostAuth u p) w) in
    let req := EvHttp root (PostAuth u p) res in
    let start := EvLog ("Trying to login to " ++ root ++ " as " ++ u) in
    let success := EvLog ("SUCCESS: Logged in as " ++ u ++ " - token received.") in
    if accepted res
    then match body_of res with
         | JwtPayload tok => (Return tok, w1, [start; req; success])
         | _ => (Raise (mkExc KeyError "'jwt'"), w1, [start; req; success])
         end
    else
      let msg := "ERROR (create_session): Failed to authenticate as '" ++ u
                 ++ "', token not obtained. Exception: " ++ failure_text res in
      (Raise (mkExc RequestException msg), w1, [start; req; EvLog msg]).
Proof.
  unfold create_session. run_op.
  destruct (send remote root (PostAuth u p) w) as [[resp|msg] w1]; simpl.
  - by_status resp w1. destruct (json resp); reflexivity.
  - reflexivity.
Qed.

Lemma get_all_stacks_eq (tok : string) (w : World) :
  get_all_stacks remote root tok w =
    let res := fst (send remote root (GetStacks tok) w) in
    let w1 := snd (send remote root (GetStacks tok) w) in
    let req := EvHttp root (GetStacks tok) res in
    let start := EvLog "Getting all stacks" in
    if accepted res
    then match body_of res with
         | StacksPayload l =>
             (Return l, w1,
              [start; req; EvLog ("Received " ++ str_nat (length l) ++ " stacks")])
         | _ => (Raise (mkExc TypeError "string indices must be integers"),
                 w1, [start; req])
         end
    else
      let msg := "ERROR (get_all_stacks): Getting stacks failed. Exception "
                 ++ failure_text res in
      (Raise (mkExc RequestException msg), w1, [start; req; EvLog msg]).
Proof.
  unfold get_all_stacks. run_op.
  destruct (send remote root (GetStacks tok) w) as [[resp|msg] w1]; simpl.
  - by_status resp w1. destruct (json resp); reflexivity.
  - reflexivity.
Qed.

Lemma _get_all_endpoints_eq (tok : string) (w : World) :
  _get_all_endpoints remote root tok w =
    let res := fst (send remote root (GetEndpoints tok) w) in
    let w1 := snd (send remote root (GetEndpoints tok) w) in
    let req := EvHttp root (GetEndpoints tok) res in
    let start := EvLog "Getting endpoints" in
    if accepted res
    then match body_of res with
         | EndpointsPayload l =>
             (Return l, w1,
              [start; req;
               EvLog ("Received " ++ str_nat (length l) ++ " endpoints")])
         | _ => (Raise (mkExc TypeError "string indices must be integers"),
                 w1, [start; req])
         end
    else
      let msg := "ERROR (_get_all_endpoints): Getting endpoints failed. Exception "
                 ++ failure_text res in
      (Raise (mkExc RequestException msg), w1, [start; req; EvLog msg]).
Proof.
  unfold _get_all_endpoints. run_op.
  destruct (send remote root (GetEndpoints tok) w) as [[resp|msg] w1]; simpl.
  - by_status resp w1. destruct (json resp); reflexivity.
  - reflexivity.
Qed.

Lemma check_admin_exists_eq (w : World) :
  check_admin_exists remote root w =
    let res := fst (send remote root GetAdminCheck w) in
    let w1 := snd (send remote root GetAdminCheck w) in
    let req := EvHttp root GetAdminCheck res in
    let start := EvLog "Checking if admin already initialized..." in
    match res with
    | inl resp =>
        if (status_code resp =? 204)%Z
        then (Return true, w1, [start; req; EvWarn admin_warning])
        else (Return false, w1, [start; req])
    | inr m =>
        let msg := "ERROR (check_admin_exists): Check if admin exists failed. Exception: "
                   ++ m in
        (Raise (mkExc RequestException msg), w1, [start; req; EvLog msg])
    end.
Proof.
  unfold check_admin_exists. run_op.
  destruct (send remote root GetAdminCheck w) as [[resp|msg] w1]; simpl.
  - destruct (status_code resp =? 204)%Z; reflexivity.
  - reflexivity.
Qed.

Lemma create_stack_eq (tok n path : string) (eid : Z) (w : World) :
  create_stack remote root tok n path eid w =
    let start := EvLog ("Creating stack - " ++ n) in
    match fopen remote path w with
    | (inr m, w0) => (Raise (mkExc OSError m), w0, [start; EvOpen path (inr m)])
    | (inl f, w0) =>
        let res := fst (send remote root (PostStackCreate tok n f eid) w0) in
        let w1 := snd (send remote root (PostStackCreate tok n f eid) w0) in
        let req := EvHttp root (PostStackCreate tok n f eid) res in
        if accepted res
        then (Return true, w1,
              [start; EvOpen path (inl f); req;
               EvLog ("SUCCESS: " ++ n ++ " stack created")])
        else
          (Return false, w1,
           [start; EvOpen path (inl f); req;
            EvLog ("ERROR (create_stack): '" ++ n
                   ++ "' failed to create. Exception: " ++ failure_text res)])
    end.
Proof.
  unfold create_stack, open. run_op.
  destruct (fopen remote path w) as [[f|m] w0]; simpl; [|reflexivity].
  destruct (send remote root (PostStackCreate tok n f eid) w0)
    as [[resp|msg] w1]; simpl.
  - by_status resp w1.
  - reflexivity.
Qed.

Lemma search_endpoint_eq l nm (w : World) :
  search_endpoint l nm w =
    match find (named nm) l with
    | Some e => (Return (Id e), w, @nil Event)
    | None => (Raise (mkExc PlainException (not_found_msg nm)), w,
               [EvLog (not_found_msg nm)])
    end.
Proof.
  induction l as [|e l IH]; simpl; [reflexivity|].
  unfold named at 1. destruct (String.eqb (Name e) nm); [reflexivity|exact IH].
Qed.

Lemma get_endpoint_id_eq (tok nm : string) (w : World) :
  get_endpoint_id remote root tok nm w =
    match _get_all_endpoints remote root tok w with
    | (Raise e, w1, t1) => (Raise e, w1, t1)
    | (Return l, w1, t1) =>
        match l with
        | [] => (Raise (mkExc PlainException "0 endpoints found."), w1, t1)
        | _ :: _ =>
            match find (named nm) l with
            | Some e => (Return (Id e), w1, t1)
            | None =>
                (Raise (mkExc PlainException (not_found_msg nm)), w1,
                 (t1 ++ [EvLog (not_found_msg nm)])%list)
            end
        end
    end.
Proof.
  unfold get_endpoint_id, bind.
  destruct (_get_all_endpoints remote root tok w) as [[[l|e] w1] t1];
    [|reflexivity].
  destruct l as [|e0 l]; [simpl; rewrite app_nil_r; reflexivity|].
  cbn [length Nat.eqb]. rewrite search_endpoint_eq.
  destruct (find (named nm) (e0 :: l)); [rewrite app_nil_r|]; reflexivity.
Qed.

End Operations.

(** ** Readers over appended traces *)

Lemma logged_app t1 t2 : logged (t1 ++ t2) = (logged t1 ++ logged t2)%list.
Proof.
  induction t1 as [|ev t1 IH]; simpl; [reflexivity|].
  destruct ev; simpl; rewrite IH; reflexivity.
Qed.

Lemma warned_app t1 t2 : warned (t1 ++ t2) = (warned t1 ++ warned t2)%list.
Proof.
  induction t1 as [|ev t1 IH]; simpl; [reflexivity|].
  destruct ev; simpl; rewrite IH; reflexivity.
Qed.

Lemma files_read_app t1 t2 :
  files_read (t1 ++ t2) = (files_read t1 ++ files_read t2)%list.
Proof.
  induction t1 as [|ev t1 IH]; simpl; [reflexivity|].
  destruct ev as [? ? ?|? [f|m]| |]; simpl; rewrite IH; reflexivity.
Qed.

Lemma session_of_granted u p res tok :
  accepted res = true -> body_of res = JwtPayload tok ->
  session_of (PostAuth u p, res) = [Some tok].
Proof.
  intros Ha Hb. destruct res as [resp|m]; [|discriminate Hb].
  unfold session_of. simpl in Hb. rewrite Ha, Hb. reflexivity.
Qed.

Lemma listing_of_body tok res :
  listing_of (GetStacks tok, res)
  = match body_of res with StacksPayload l => l | _ => [] end.
Proof. destruct res; reflexivity. Qed.

Lemma endpoint_listing_of_body tok res :
  endpoint_listing_of (GetEndpoints tok, res)
  = match body_of res with EndpointsPayload l => l | _ => [] end.
Proof. destruct res; reflexivity. Qed.

Lemma skipped_cons_old E s l :
  already_exists E s = true -> skipped E (s :: l) = s :: skipped E l.
Proof. intros H. unfold skipped. simpl. rewrite H. reflexivity. Qed.

Lemma skipped_cons_new E s l :
  already_exists E s = false -> skipped E (s :: l) = skipped E l.
Proof. intros H. unfold skipped. simpl. rewrite H. reflexivity. Qed.

(** ** The loop, with everything it leaves in the trace *)

Section LoopRun.

Context {World : Type}.
Variable remote : Remote World.
Variable params : Params.

Lemma for_stacks_run tok eid E l :
  forall acc w o w' t,
    for_stacks remote params tok eid E l acc w = (o, w', t) ->
    match o with
    | Return cs =>
        calls t = map (creation_request tok eid)
                    (combine (to_create E l) (files_read t)) /\
        length (files_read t) = length (to_create E l) /\
        warned t = map skip_warning (skipped E l)
    | Raise e =>
        exists s msg,
          In s l /\ In (EvOpen (compose_file s) (inr msg)) t /\
          e = mkExc OSError msg
    end.
Proof.
  induction l as [|s l IH]; intros acc w o w' t H.
  - simpl in H. unfold ret in H. inversion H; subst. simpl. auto.
  - simpl in H.
    destruct (contains (lower (name s)) E) eqn:Hex.
    + apply bind_inv in H.
      destruct H as [[e [Hw _]]|[[] [w1 [t1 [t2 [Hw [Hk Ht]]]]]]];
        unfold warn, emit in Hw; inversion Hw; subst; clear Hw.
      apply IH in Hk.
      rewrite (to_create_cons_old E s l Hex), (skipped_cons_old E s l Hex).
      destruct o as [cs|e].
      * destruct Hk as [Hc [Hl Hwarn]].
        rewrite calls_app, files_read_app, warned_app. simpl.
        rewrite Hwarn. auto.
      * destruct Hk as [s' [msg [Hin [Hev He]]]].
        exists s', msg. simpl. auto.
    + apply bind_inv in H. rewrite create_stack_eq in H.
      rewrite (to_create_cons_new E s l Hex), (skipped_cons_new E s l Hex).
      destruct (fopen remote (compose_file s) w) as [[f|m] w0].
      2:{ destruct H as [[e [Hc Ho]]|[a [w1 [t1 [t2 [Hc _]]]]]];
            [|discriminate Hc].
          inversion Hc; subst. exists s, m. simpl. auto. }
      cbv zeta in H.
      destruct H as [[e [Hc Ho]]|[a [w1 [t1 [t2 [Hc [Hk Ht]]]]]]].
      { destruct (accepted _) in Hc; discriminate Hc. }
      apply IH in Hk.
      assert (Ht1 : calls t1 = [PostStackCreate tok (name s) f eid] /\
                    files_read t1 = [f] /\ warned t1 = []).
      { destruct (accepted _) in Hc; inversion Hc; subst; auto. }
      destruct Ht1 as [Hc1 [Hf1 Hw1]]. subst t.
      destruct o as [cs|e].
      * destruct Hk as [Hcalls [Hlen Hwarn]].
        rewrite calls_app, files_read_app, warned_app, Hc1, Hf1, Hw1.
        simpl. rewrite Hcalls, Hlen, Hwarn. auto.
      * destruct Hk as [s' [msg [Hin [Hev He]]]].
        exists s', msg. split; [simpl; auto|]. split; [|exact He].
        apply in_or_app. auto.
Qed.

End LoopRun.

(** ** Steps 1 to 5, run symbolically *)

Arguments listing_of !x : simpl nomatch.
Arguments endpoint_listing_of !x : simpl nomatch.

Ltac split_binds :=
  repeat
    (match goal with
     | H : bind _ _ _ = (_, _, _) |- _ =>
         apply bind_inv in H;
         destruct H as [[? [H ?]]|[? [? [? [? [H [? ?]]]]]]]
     | H : (if ?a && negb ?b then _ else _) _ = (_, _, _) |- _ =>
         destruct a eqn:?; destruct b eqn:?; simpl in H
     | H : ret _ _ = (_, _, _) |- _ => unfold ret in H; inversion H; clear H
     | H : Return _ = Raise _ |- _ => discriminate H
     | H : Raise _ = Return _ |- _ => discriminate H
     | H : Return _ = Return _ |- _ => inversion H; clear H
     | H : Raise _ = Raise _ |- _ => inversion H; clear H
     end; subst).

Ltac run_ops :=
  repeat
    (match goal with
     | H : ping _ _ _ = _ |- _ => rewrite ping_eq in H; cbv zeta in H
     | H : check_admin_exists _ _ _ = _ |- _ =>
         rewrite check_admin_exists_eq in H; cbv zeta in H
     | H : create_admin _ _ _ _ _ = _ |- _ =>
         rewrite create_admin_eq in H; cbv zeta in H
     | H : create_session _ _ _ _ _ = _ |- _ =>
         rewrite create_session_eq in H; cbv zeta in H
     | H : create_endpoint _ _ _ _ _ = _ |- _ =>
         rewrite create_endpoint_eq in H; cbv zeta in H
     | H : get_endpoint_id _ _ _ _ _ = _ |- _ =>
         rewrite get_endpoint_id_eq, _get_all_endpoints_eq in H; cbv zeta in H
     | H : get_all_stacks _ _ _ _ = _ |- _ =>
         rewrite get_all_stacks_eq in H; cbv zeta in H
     | H : context [send ?r ?u ?q ?w] |- _ =>
         destruct (send r u q w) as [? ?]; cbn [fst snd] in H
     | H : context [if accepted ?r then _ else _] |- _ =>
         destruct (accepted r) eqn:?
     | H : context [match body_of ?r with _ => _ end] |- _ =>
         destruct (body_of r) eqn:?
     | H : context [match ?r with inl _ => _ | inr _ => _ end] |- _ =>
         destruct r
     | H : context [if (status_code ?r =? 204)%Z then _ else _] |- _ =>
         destruct (status_code r =? 204)%Z eqn:?
     | H : context [match find ?f ?l with _ => _ end] |- _ =>
         destruct (find f l) eqn:?
     | H : context [match ?l with [] => _ | _ :: _ => _ end] |- _ =>
         destruct l
     | H : (_, _, _) = (_, _, _) |- _ => inversion H; clear H
     end; subst; try discriminate).

Ltac read_run :=
  unfold admin_answers, admin_inits, sessions, endpoints_listed, listed, calls;
  simpl;
  rewrite ?listing_of_body, ?endpoint_listing_of_body;
  repeat match goal with
         | Ha : accepted ?s = true, Hb : body_of ?s = JwtPayload _ |- _ =>
             rewrite (session_of_granted _ _ s _ Ha Hb)
         | Hb : body_of _ = _ |- _ => rewrite Hb
         | H : (status_code _ =? 204)%Z = _ |- _ => rewrite H
         | H : initial_setup _ = _ |- _ => rewrite H
         end;
  simpl; rewrite ?app_nil_r.

Section StepsRun.

Context {World : Type}.
Variable remote : Remote World.
Variable params : Params.

Lemma steps_return_run w tok eid E w0 t :
  steps_1_to_5 remote params w = (Return (tok, eid, E), w0, t) ->
  exists a e,
    admin_answers t = [a] /\
    sessions t = [Some tok] /\
    find (named (endpoint params)) (endpoints_listed t) = Some e /\
    eid = Id e /\
    listed t = E /\
    calls t = ([GetRoot; GetAdminCheck]
               ++ (if initial_setup params && negb a
                   then [PostAdminInit (admin_username params) (admin_password params);
                         PostAuth (admin_username params) (admin_password params);
                         PostEndpoints tok (endpoint params)]
                   else [PostAuth (admin_username params) (admin_password params)])
               ++ [GetEndpoints tok; GetStacks tok])%list /\
    warned t = (if a then [admin_warning] else []) /\
    files_read t = [].
Proof.
  unfold steps_1_to_5. intros H. split_binds; run_ops; read_run.
  all: do 2 eexists; repeat split; try reflexivity; eauto.
Qed.

Ltac try_operation op :=
  exists op;
  split; [unfold operations; simpl; tauto|];
  split; [reflexivity | simpl; tauto].

Ltac name_operation :=
  first [ try_operation "ping" | try_operation "check_admin_exists"
        | try_operation "create_admin" | try_operation "create_session"
        | try_operation "create_endpoint" | try_operation "_get_all_endpoints"
        | try_operation "get_all_stacks" ].

Lemma steps_raise_run w e w0 t :
  steps_1_to_5 remote params w = (Raise e, w0, t) ->
  (forall r tk, In r (calls t) -> token_of r = Some tk ->
                sessions t = [Some tk]) /\
  (exc_class e = RequestException ->
   exists op,
     In op operations /\
     String.prefix ("ERROR (" ++ op ++ ")") (args e) = true /\
     In (args e) (logged t)).
Proof.
  unfold steps_1_to_5. intros H. split_binds; run_ops; read_run.
  all: split;
    [ intros rq tk Hin Htok;
      repeat (destruct Hin as [Hin|Hin];
              [subst rq; simpl in Htok; try discriminate Htok;
               try (injection Htok as <-; reflexivity)|]);
      contradiction
    | intros Hcls; try discriminate Hcls; name_operation ].
Qed.

End StepsRun.

(** ** Whole runs, read from the trace *)

Lemma only_creations_endpoints x :
  only_creations x -> flat_map endpoint_listing_of x = [].
Proof.
  induction 1 as [|[r res] x Hr _ IH]; simpl; [reflexivity|].
  destruct r; try discriminate Hr. exact IH.
Qed.

Lemma sessions_app t1 t2 : sessions (t1 ++ t2) = (sessions t1 ++ sessions t2)%list.
Proof. unfold sessions. rewrite exchanges_app, flat_map_app. reflexivity. Qed.

Lemma admin_answers_app t1 t2 :
  admin_answers (t1 ++ t2) = (admin_answers t1 ++ admin_answers t2)%list.
Proof. unfold admin_answers. rewrite exchanges_app, flat_map_app. reflexivity. Qed.

Lemma endpoints_listed_app t1 t2 :
  endpoints_listed (t1 ++ t2) = (endpoints_listed t1 ++ endpoints_listed t2)%list.
Proof. unfold endpoints_listed. rewrite exchanges_app, flat_map_app. reflexivity. Qed.

Lemma creation_call_attempted t tk n f id :
  In (PostStackCreate tk n f id) (calls t) ->
  In n (map fst (creation_attempts t)).
Proof.
  unfold calls, creation_attempts.
  induction (exchanges t) as [|[r res] x IH]; simpl; [tauto|].
  intros [Hr|Hin].
  - subst r. simpl. auto.
  - destruct r; simpl; auto.
Qed.

Section Runs.

Context {World : Type}.
Variable remote : Remote World.
Variable params : Params.

(** The requests of the loop carry the token and the endpoint id that
    the loop was given. *)
Lemma for_stacks_requests tok eid E l :
  forall acc w o w' t,
    for_stacks remote params tok eid E l acc w = (o, w', t) ->
    Forall (fun r => exists n f, r = PostStackCreate tok n f eid) (calls t).
Proof.
  induction l as [|s l IH]; intros acc w o w' t H.
  - simpl in H. unfold ret in H. inversion H; subst. constructor.
  - simpl in H.
    destruct (contains (lower (name s)) E) eqn:Hex.
    + apply bind_inv in H.
      destruct H as [[e [Hw _]]|[[] [w1 [t1 [t2 [Hw [Hk Ht]]]]]]];
        unfold warn, emit in Hw; inversion Hw; subst; clear Hw.
      apply IH in Hk. exact Hk.
    + apply bind_inv in H. rewrite create_stack_eq in H.
      destruct (fopen remote (compose_file s) w) as [[f|m] w0].
      2:{ destruct H as [[e [Hc Ho]]|[a [w1 [t1 [t2 [Hc _]]]]]];
            [|discriminate Hc].
          inversion Hc; subst. constructor. }
      cbv zeta in H.
      destruct H as [[e [Hc Ho]]|[a [w1 [t1 [t2 [Hc [Hk Ht]]]]]]].
      { destruct (accepted _) in Hc; discriminate Hc. }
      apply IH in Hk.
      assert (Hc1 : calls t1 = [PostStackCreate tok (name s) f eid]).
      { destruct (accepted _) in Hc; inversion Hc; subst; reflexivity. }
      subst t. rewrite calls_app, Hc1. constructor; [eauto|exact Hk].
Qed.

(** A run whose steps 1 to 5 returned: [main] is the loop, then the
    report. *)
Lemma main_after_steps w tok eid E w0 t0 :
  stacks params <> [] ->
  steps_1_to_5 remote params w = (Return (tok, eid, E), w0, t0) ->
  main remote params w =
    match for_stacks remote params tok eid E (stacks params) [] w0 with
    | (Return cs, w', t1) =>
        (exit_json (if (0 <? count true cs)%nat then true else false)
           (str_nat (length cs) ++ " stacks created")
           (str_nat (count true cs)) (str_nat (count false cs)),
         w', (t0 ++ t1)%list)
    | (Raise e, w', t1) =>
        (fail_json (Some false) (args e), w', (t0 ++ t1)%list)
    end.
Proof.
  intros Hne Hst. unfold main.
  destruct (stacks params) as [|s0 l0] eqn:Hs; [congruence|].
  rewrite main_try_split. unfold bind. rewrite Hst, Hs.
  destruct (for_stacks remote params tok eid E (s0 :: l0) [] w0)
    as [[[cs|e] w'] t1]; reflexivity.
Qed.

Lemma main_steps_raise w e w' t :
  stacks params <> [] ->
  steps_1_to_5 remote params w = (Raise e, w', t) ->
  main remote params w = (fail_json (Some false) (args e), w', t).
Proof.
  intros Hne Hst. unfold main.
  destruct (stacks params) as [|s0 l0] eqn:Hs; [congruence|].
  rewrite main_try_split, (bind_raise _ _ _ _ _ _ Hst). reflexivity.
Qed.

(** Everything a run that ends with [exit_json] leaves in its trace. *)
Lemma exit_run_shape w c m d f w' t :
  main remote params w = (exit_json c m d f, w', t) ->
  exists a tok e,
    admin_answers t = [a] /\
    sessions t = [Some tok] /\
    find (named (endpoint params)) (endpoints_listed t) = Some e /\
    calls t
    = ([GetRoot; GetAdminCheck]
       ++ (if initial_setup params && negb a
           then [PostAdminInit (admin_username params) (admin_password params);
                 PostAuth (admin_username params) (admin_password params);
                 PostEndpoints tok (endpoint params)]
           else [PostAuth (admin_username params) (admin_password params)])
       ++ [GetEndpoints tok; GetStacks tok]
       ++ map (creation_request tok (Id e))
            (combine (to_create (listed t) (stacks params)) (files_read t)))%list /\
    length (files_read t) = length (to_create (listed t) (stacks params)) /\
    warned t
    = ((if a then [admin_warning] else [])
       ++ map skip_warning (skipped (listed t) (stacks params)))%list.
Proof.
  intros Hm. pose proof Hm as Hc. apply main_cases in Hc.
  destruct Hc as [[_ [_ Hr]]|[[e [_ Hr]]|
                  [tok [eid [E [w0 [t0 [o [t1 [Hst [Hl [Ht Hres]]]]]]]]]]]];
    try discriminate Hr.
  destruct o as [cs|e]; [|specialize (Hres e eq_refl); discriminate Hres].
  pose proof (for_stacks_inv _ _ _ _ _ _ _ _ _ _ _ Hl) as [Hall _].
  apply for_stacks_run in Hl. destruct Hl as [Hcalls [Hlen Hwarn]].
  apply steps_return_run in Hst.
  destruct Hst as [a [e [Ha [Hs [Hf [He [HE [Hc0 [Hw0 Hf0]]]]]]]]].
  assert (Hlisted : listed t = E).
  { subst t. rewrite listed_app, HE. unfold listed.
    rewrite (only_creations_listed _ Hall). apply app_nil_r. }
  assert (Hfiles : files_read t = files_read t1).
  { subst t. rewrite files_read_app, Hf0. reflexivity. }
  exists a, tok, e. rewrite Hlisted, Hfiles. subst t.
  rewrite admin_answers_app, sessions_app, endpoints_listed_app, calls_app,
    warned_app.
  unfold admin_answers at 2, sessions at 2, endpoints_listed at 2.
  rewrite (only_creations_admin_answers _ Hall), (only_creations_sessions _ Hall),
    (only_creations_endpoints _ Hall), !app_nil_r.
  rewrite Ha, Hs, Hf, Hc0, Hw0, Hcalls, Hwarn, <- He, <- !app_assoc.
  repeat split; auto.
Qed.

End Runs.

(** ** Properties of whole runs *)

(** X9: with an empty stack list [main] fails at once, with the message
    of line 375, no [changed] and no effect at all; with a non-empty list
    the first effect of the run is the reachability request. *)
Theorem main_first_effect {World : Type} (remote : Remote World)
    (params : Params) (w : World) :
  (stacks params = [] ->
   main remote params w
   = (fail_json None "No stacks provided in playbook", w, [])) /\
  (stacks params <> [] ->
   exists res rest,
     snd (main remote params w)
     = EvHttp (root_url params) GetRoot res :: rest).
Proof.
  split.
  - intros Hs. unfold main. rewrite Hs. reflexivity.
  - intros Hne. unfold main.
    destruct (stacks params) as [|s0 l0]; [congruence|].
    unfold main_try.
    match goal with
    | |- context [bind ?m ?k w] =>
        destruct (bind m k w) as [[o w1] t] eqn:Hb
    end.
    apply bind_inv in Hb. rewrite ping_eq in Hb. cbv zeta in Hb.
    assert (Ht : exists res rest, t = EvHttp (root_url params) GetRoot res :: rest).
    { destruct Hb as [[e [Hp _]]|[a [w2 [t1 [t2 [Hp [_ Ht]]]]]]];
        destruct (accepted _) in Hp; inversion Hp; subst; simpl; eauto. }
    destruct Ht as [res [rest ->]]. exists res, rest.
    destruct o; reflexivity.
Qed.

(** X10: once steps 1 to 5 have passed, the only thing that can end the
    run without a report is a compose file that cannot be opened: the run
    ends in [exit_json], or in [fail_json] with the message of the
    [OSError] of a declared stack's compose file. *)
Theorem loop_aborts_only_on_open_failure {World : Type} (remote : Remote World)
    (params : Params) (w : World) x w0 t0 res w' t :
  stacks params <> [] ->
  steps_1_to_5 remote params w = (Return x, w0, t0) ->
  main remote params w = (res, w', t) ->
  (exists c m d f, res = exit_json c m d f) \/
  (exists s msg,
      In s (stacks params) /\
      In (EvOpen (compose_file s) (inr msg)) t /\
      res = fail_json (Some false) msg).
Proof.
  intros Hne Hst Hm. destruct x as [[tok eid] E].
  rewrite (main_after_steps remote params w tok eid E w0 t0 Hne Hst) in Hm.
  destruct (for_stacks remote params tok eid E (stacks params) [] w0)
    as [[[cs|e] w1] t1] eqn:Hl; inversion Hm; subst; clear Hm.
  - left. eauto.
  - right. apply for_stacks_run in Hl.
    destruct Hl as [s [msg [Hin [Hev He]]]]. subst e.
    exists s, msg. repeat split; auto. apply in_or_app. auto.
Qed.

(** X11: in every run, a request that carries a bearer token carries
    the token of the run's one session request, and a stack creation
    request carries the id of the first listed endpoint that has the
    configured name. *)
Theorem requests_carry_session_and_endpoint {World : Type}
    (remote : Remote World) (params : Params) (w : World) :
  let t := snd (main remote params w) in
  (forall r tk, In r (calls t) -> token_of r = Some tk ->
                sessions t = [Some tk]) /\
  (forall tk n f id,
      In (PostStackCreate tk n f id) (calls t) ->
      exists e,
        find (named (endpoint params)) (endpoints_listed t) = Some e /\
        id = Id e).
Proof.
  destruct (main remote params w) as [[res w'] t] eqn:Hm. simpl.
  apply main_cases in Hm.
  destruct Hm as [[_ [Ht _]]|[[e [Hst _]]|
                  [tok [eid [E [w0 [t0 [o [t1 [Hst [Hl [Ht _]]]]]]]]]]]].
  - subst t. split; intros; contradiction.
  - split.
    + apply (steps_raise_run _ _ _ _ _ _ Hst).
    + intros tk n f id Hin. apply creation_call_attempted in Hin.
      apply steps_1_to_5_quiet in Hst. destruct Hst as [_ [Hca _]].
      rewrite Hca in Hin. contradiction.
  - pose proof (for_stacks_inv _ _ _ _ _ _ _ _ _ _ _ Hl) as [Hall _].
    pose proof (for_stacks_requests _ _ _ _ _ _ _ _ _ _ _ Hl) as Hreq.
    rewrite Forall_forall in Hreq.
    apply steps_return_run in Hst.
    destruct Hst as [a [e [Ha [Hs [Hf [He [HE [Hc0 _]]]]]]]].
    assert (Hsess : sessions t = [Some tok]).
    { subst t. rewrite sessions_app, Hs. unfold sessions.
      rewrite (only_creations_sessions _ Hall). reflexivity. }
    assert (Hends : endpoints_listed t = endpoints_listed t0).
    { subst t. rewrite endpoints_listed_app. unfold endpoints_listed at 2.
      rewrite (only_creations_endpoints _ Hall). apply app_nil_r. }
    rewrite Hsess, Hends. subst t. split.
    + intros r tk Hin Htok. rewrite calls_app in Hin.
      apply in_app_or in Hin. destruct Hin as [Hin|Hin].
      * rewrite Hc0 in Hin. destruct (initial_setup params && negb a);
          simpl in Hin;
          repeat (destruct Hin as [Hin|Hin];
                  [subst r; simpl in Htok; try discriminate Htok;
                   injection Htok as <-; reflexivity|]);
          contradiction.
      * destruct (Hreq r Hin) as [n [f ->]]. simpl in Htok.
        injection Htok as <-. reflexivity.
    + intros tk n f id Hin. rewrite calls_app in Hin.
      apply in_app_or in Hin. destruct Hin as [Hin|Hin].
      * rewrite Hc0 in Hin. destruct (initial_setup params && negb a);
          simpl in Hin;
          repeat (destruct Hin as [Hin|Hin]; [discriminate Hin|]);
          contradiction.
      * destruct (Hreq _ Hin) as [n' [f' Heq]]. injection Heq as -> -> -> ->.
        exists e. auto.
Qed.

(** X12: the requests of a successful run, in full and in order: the
    reachability check, the admin check, the bootstrap calls or the
    login, the endpoint listing, the stack listing, then one creation
    request per declaration that is not skipped, in the order of the
    playbook, each with the file that was opened for it. *)
Theorem successful_run_calls {World : Type} (remote : Remote World)
    (params : Params) (w : World) c m d f w' t :
  main remote params w = (exit_json c m d f, w', t) ->
  exists a tok e,
    admin_answers t = [a] /\
    sessions t = [Some tok] /\
    find (named (endpoint params)) (endpoints_listed t) = Some e /\
    calls t
    = ([GetRoot; GetAdminCheck]
       ++ (if initial_setup params && negb a
           then [PostAdminInit (admin_username params) (admin_password params);
                 PostAuth (admin_username params) (admin_password params);
                 PostEndpoints tok (endpoint params)]
           else [PostAuth (admin_username params) (admin_password params)])
       ++ [GetEndpoints tok; GetStacks tok]
       ++ map (creation_request tok (Id e))
            (combine (to_create (listed t) (stacks params)) (files_read t)))%list /\
    length (files_read t) = length (to_create (listed t) (stacks params)).
Proof.
  intros Hm. apply exit_run_shape in Hm.
  destruct Hm as [a [tok [e [Ha [Hs [Hf [Hc [Hl _]]]]]]]].
  exists a, tok, e. auto.
Qed.

(** X13: the warnings of a successful run: the "already initialized"
    warning exactly when the admin check answered 204, whether or not
    initial setup was asked for, then one warning per skipped
    declaration, in the order of the playbook. *)
Theorem successful_run_warnings {World : Type} (remote : Remote World)
    (params : Params) (w : World) c m d f w' t :
  main remote params w = (exit_json c m d f, w', t) ->
  exists a,
    admin_answers t = [a] /\
    warned t
    = ((if a then [admin_warning] else [])
       ++ map skip_warning (skipped (listed t) (stacks params)))%list.
Proof.
  intros Hm. apply exit_run_shape in Hm.
  destruct Hm as [a [tok [e [Ha [_ [_ [_ [_ Hw]]]]]]]].
  exists a. auto.
Qed.

(** X14: a transport failure in steps 1 to 5 (an exception of
    [requests] or an error status) ends the run with a message that
    starts with [ERROR (<operation>)] for one of the client's operations,
    and that message was written to the log before the run ended. *)
Theorem transport_failure_tagged_and_logged {World : Type}
    (remote : Remote World) (params : Params) (w : World) e w' t :
  stacks params <> [] ->
  steps_1_to_5 remote params w = (Raise e, w', t) ->
  exc_class e = RequestException ->
  main remote params w = (fail_json (Some false) (args e), w', t) /\
  (exists op,
      In op operations /\
      String.prefix ("ERROR (" ++ op ++ ")") (args e) = true) /\
  In (args e) (logged t).
Proof.
  intros Hne Hst Hcls.
  destruct (proj2 (steps_raise_run _ _ _ _ _ _ Hst) Hcls) as [op [Hop [Hp Hl]]].
  split; [apply main_steps_raise; assumption|].
  split; [exists op; auto|exact Hl].
Qed.

(** X15: against a remote that lists only lowercase names, a declared
    stack is submitted for creation in a successful run exactly when no
    listed name equals its name after lowercasing both. *)
Theorem lowercase_remote_case_insensitive {World : Type} (remote : Remote World)
    (params : Params) (w : World) c m d f w' t :
  main remote params w = (exit_json c m d f, w', t) ->
  (forall r, In r (listed t) -> lower r = r) ->
  forall s, In s (stacks params) ->
    (In (name s) (map fst (creation_attempts t))
     <-> matches_ignoring_case (name s) (listed t) = false).
Proof.
  intros Hm Hlow s Hs. apply main_exit_inv in Hm.
  destruct Hm as [_ [_ [_ [_ [Hn _]]]]].
  rewrite Hn, <- (already_exists_lowercase_remote (listed t) s Hlow).
  split.
  - intros Hin. destruct (already_exists (listed t) s) eqn:Hex; [|reflexivity].
    exfalso. exact (skipped_not_to_create _ _ _ Hex Hin).
  - intros Hex. apply in_map. unfold to_create. apply filter_In.
    rewrite Hex. auto.
Qed.

(** X16: the password does not reach the log: two calls of
    [create_admin], or of [create_session], for the same user that get
    the same answer write the same lines and give the same warnings,
    whatever the two passwords are. *)
Theorem password_not_logged {World : Type} (remote : Remote World)
    (root u p p' : string) (w w' : World) :
  (fst (send remote root (PostAdminInit u p) w)
   = fst (send remote root (PostAdminInit u p') w') ->
   logged (trace (create_admin remote root u p w))
   = logged (trace (create_admin remote root u p' w')) /\
   warned (trace (create_admin remote root u p w))
   = warned (trace (create_admin remote root u p' w'))) /\
  (fst (send remote root (PostAuth u p) w)
   = fst (send remote root (PostAuth u p') w') ->
   logged (trace (create_session remote root u p w))
   = logged (trace (create_session remote root u p' w')) /\
   warned (trace (create_session remote root u p w))
   = warned (trace (create_session remote root u p' w'))).
Proof.
  split; intros Hsame.
  - rewrite !create_admin_eq. cbv zeta. rewrite Hsame.
    destruct (accepted _); split; reflexivity.
  - rewrite !create_session_eq. cbv zeta. rewrite Hsame.
    destruct (accepted _); [destruct (body_of _)|]; split; reflexivity.
Qed.

(** ** The client operations, as a caller sees them *)

Ltac by_cases :=
  cbv zeta;
  repeat match goal with
         | |- context [send ?r ?u ?q ?w] => destruct (send r u q w) as [? ?]
         | |- context [fopen ?r ?p ?w] => destruct (fopen r p w) as [[?|?] ?]
         end;
  cbn [fst snd];
  repeat match goal with
         | |- context [if accepted ?r then _ else _] => destruct (accepted r)
         | |- context [match body_of ?r with _ => _ end] => destruct (body_of r)
         | |- context [match find ?f ?l with _ => _ end] => destruct (find f l)
         | |- context [match ?l with [] => _ | _ :: _ => _ end] => destruct l
         end;
  unfold outcome, trace; simpl; rewrite ?app_nil_r;
  repeat split; reflexivity.

(** X1: [ping] sends one request, [GET /].  It returns when the answer
    has a status outside 400..599; on a transport exception or an error
    status it raises a [RequestException] whose message is the cause
    behind the text [ERROR (ping). Exception: ], after logging that
    message and warning that the instance cannot be reached. *)
Theorem ping_outcome {World : Type} (remote : Remote World) (root : string)
    (w : World) :
  let res := fst (send remote root GetRoot w) in
  let msg := "ERROR (ping). Exception: " ++ failure_text res in
  let r := ping remote root w in
  outcome r
  = (if accepted res then Return tt else Raise (mkExc RequestException msg)) /\
  exchanges (trace r) = [(GetRoot, res)] /\
  logged (trace r) = (if accepted res then [] else [msg]) /\
  warned (trace r)
  = (if accepted res then []
     else ["Cannot reach portainer - check IP and port."]).
Proof. rewrite ping_eq. by_cases. Qed.

(** X2: [create_admin] sends one request with the user name and the
    password.  It returns when the status is outside 400..599 and logs the
    success line; otherwise it raises a [RequestException] whose message
    names the user and ends with the cause, after logging that message.
    It never warns. *)
Theorem create_admin_outcome {World : Type} (remote : Remote World)
    (root u p : string) (w : World) :
  let res := fst (send remote root (PostAdminInit u p) w) in
  let msg := "ERROR (create_admin): Admin init failed for user '" ++ u
             ++ "'. Exception: " ++ failure_text res in
  let r := create_admin remote root u p w in
  outcome r
  = (if accepted res then Return tt else Raise (mkExc RequestException msg)) /\
  exchanges (trace r) = [(PostAdminInit u p, res)] /\
  logged (trace r)
  = ("Changing password for admin user '" ++ u ++ "'")
    :: (if accepted res then ["Success: admin password changed"] else [msg]) /\
  warned (trace r) = [].
Proof. rewrite create_admin_eq. by_cases. Qed.

(** X3: [create_endpoint] sends one request with the session token and
    the endpoint name.  It returns when the status is outside 400..599;
    otherwise it raises a [RequestException] whose message names the
    endpoint and ends with the cause, after logging that message. *)
Theorem create_endpoint_outcome {World : Type} (remote : Remote World)
    (root tok n : string) (w : World) :
  let res := fst (send remote root (PostEndpoints tok n) w) in
  let msg := "ERROR (create_endpoint): failed to create endpoint '" ++ n
             ++ "'. Exception: " ++ failure_text res in
  let r := create_endpoint remote root tok n w in
  outcome r
  = (if accepted res then Return tt else Raise (mkExc RequestException msg)) /\
  exchanges (trace r) = [(PostEndpoints tok n, res)] /\
  logged (trace r)
  = ("Creating endpoint " ++ n)
    :: (if accepted res then ["Success: endpoint '" ++ n ++ "' created"]
        else [msg]) /\
  warned (trace r) = [].
Proof. rewrite create_endpoint_eq. by_cases. Qed.

(** X4: [create_session] sends one request with the credentials.  On a
    status outside 400..599 it logs that a token was received and then
    reads the token from the body: it returns the [jwt] of the body, and
    with a body that has none it raises.  On a transport exception or an
    error status it raises a [RequestException] that names the user,
    after logging its message.  It never warns. *)
Theorem create_session_outcome {World : Type} (remote : Remote World)
    (root u p : string) (w : World) :
  let res := fst (send remote root (PostAuth u p) w) in
  let msg := "ERROR (create_session): Failed to authenticate as '" ++ u
             ++ "', token not obtained. Exception: " ++ failure_text res in
  let start := "Trying to login to " ++ root ++ " as " ++ u in
  let r := create_session remote root u p w in
  exchanges (trace r) = [(PostAuth u p, res)] /\
  warned (trace r) = [] /\
  (if accepted res
   then match body_of res with
        | JwtPayload tok =>
            outcome r = Return tok /\
            logged (trace r)
            = [start; "SUCCESS: Logged in as " ++ u ++ " - token received."]
        | _ => exists e, outcome r = Raise e
        end
   else outcome r = Raise (mkExc RequestException msg) /\
        logged (trace r) = [start; msg]).
Proof.
  rewrite create_session_eq. cbv zeta.
  destruct (send remote root (PostAuth u p) w) as [res w1]. cbn [fst snd].
  destruct (accepted res); [destruct (body_of res)|];
    unfold outcome, trace; simpl; eauto.
Qed.


(** X6: [_get_all_endpoints] sends one request with the token.  When a
    list of endpoints comes back with a status outside 400..599 it
    returns the list as it is and logs how many it received.  A transport
    exception or an error status becomes a [RequestException] with the
    text of the operation, logged before it is raised. *)
Theorem get_all_endpoints_outcome {World : Type} (remote : Remote World)
    (root tok : string) (w : World) :
  let res := fst (send remote root (GetEndpoints tok) w) in
  let msg := "ERROR (_get_all_endpoints): Getting endpoints failed. Exception "
             ++ failure_text res in
  let r := _get_all_endpoints remote root tok w in
  exchanges (trace r) = [(GetEndpoints tok, res)] /\
  warned (trace r) = [] /\
  (if accepted res
   then match body_of res with
        | EndpointsPayload l =>
            outcome r = Return l /\
            logged (trace r)
            = ["Getting endpoints";
               "Received " ++ str_nat (length l) ++ " endpoints"]
        | _ => True
        end
   else outcome r = Raise (mkExc RequestException msg) /\
        logged (trace r) = ["Getting endpoints"; msg]).
Proof.
  rewrite _get_all_endpoints_eq. cbv zeta.
  destruct (send remote root (GetEndpoints tok) w) as [res w1]. cbn [fst snd].
  destruct (accepted res); [destruct (body_of res)|];
    unfold outcome, trace; simpl; auto.
Qed.

(** X7: [get_endpoint_id] on a listing that came back: an empty listing
    raises [0 endpoints found.] without a log line; a listing with an
    endpoint of the name returns the id of the first one; a listing
    without one logs the not-found line and raises it.  In each case the
    only request is the endpoint listing. *)
Theorem get_endpoint_id_on_listing {World : Type} (remote : Remote World)
    (root tok nm : string) (w : World) (res : Response + string)
    (l : list EndpointJson) :
  fst (send remote root (GetEndpoints tok) w) = res ->
  accepted res = true ->
  body_of res = EndpointsPayload l ->
  let r := get_endpoint_id remote root tok nm w in
  let received := "Received " ++ str_nat (length l) ++ " endpoints" in
  exchanges (trace r) = [(GetEndpoints tok, res)] /\
  match l with
  | [] =>
      outcome r = Raise (mkExc PlainException "0 endpoints found.") /\
      logged (trace r) = ["Getting endpoints"; received]
  | _ :: _ =>
      match find (named nm) l with
      | Some e =>
          outcome r = Return (Id e) /\
          logged (trace r) = ["Getting endpoints"; received]
      | None =>
          outcome r = Raise (mkExc PlainException (not_found_msg nm)) /\
          logged (trace r) = ["Getting endpoints"; received; not_found_msg nm]
      end
  end.
Proof.
  intros Hres Ha Hb. rewrite get_endpoint_id_eq, _get_all_endpoints_eq.
  cbv zeta. rewrite Hres, Ha, Hb.
  destruct (send remote root (GetEndpoints tok) w) as [res' w1].
  simpl in Hres. subst res'. cbn [fst snd].
  destruct l as [|e0 l]; [unfold outcome, trace; simpl; auto|].
  destruct (find (named nm) (e0 :: l)); unfold outcome, trace; simpl; auto.
Qed.

(** X8: [create_stack] opens the compose file before anything else.
    When the file cannot be opened the [OSError] leaves the function and
    no request is sent.  When it can, one creation request is sent with
    the file, and the function returns [True] or [False] as the remote
    accepted or not: a transport exception or an error status is logged
    under the stack's name and absorbed. *)
Theorem create_stack_outcome {World : Type} (remote : Remote World)
    (root tok n path : string) (eid : Z) (w : World) :
  let r := create_stack remote root tok n path eid w in
  opened (trace r) = [path] /\
  match fst (fopen remote path w) with
  | inr m =>
      outcome r = Raise (mkExc OSError m) /\
      exchanges (trace r) = [] /\
      logged (trace r) = ["Creating stack - " ++ n]
  | inl f =>
      let res := fst (send remote root (PostStackCreate tok n f eid)
                        (snd (fopen remote path w))) in
      outcome r = Return (accepted res) /\
      exchanges (trace r) = [(PostStackCreate tok n f eid, res)] /\
      logged (trace r)
      = ("Creating stack - " ++ n)
        :: (if accepted res then ["SUCCESS: " ++ n ++ " stack created"]
            else ["ERROR (create_stack): '" ++ n
                  ++ "' failed to create. Exception: " ++ failure_text res])
  end.
Proof.
  rewrite create_stack_eq. cbv zeta.
  destruct (fopen remote path w) as [[f|m] w0]; cbn [fst snd].
  - destruct (send remote root (PostStackCreate tok n f eid) w0) as [res w1].
    cbn [fst snd]. destruct (accepted res); unfold outcome, trace; simpl; auto.
  - unfold outcome, trace; simpl; auto.
Qed.

(** ** The properties at concrete runs *)

Lemma get_endpoint_id_on_listing_witness :
  outcome (get_endpoint_id (sim accept_all) "https://10.0.0.1:9443" "jwt" "local"
             (mkSim true true [mkEndpoint 7 "edge"; mkEndpoint 1 "local";
                               mkEndpoint 2 "local"] [] []))
  = Return 1%Z.
Proof.
  pose (w := mkSim true true [mkEndpoint 7 "edge"; mkEndpoint 1 "local";
                              mkEndpoint 2 "local"] [] []).
  pose (root := "https://10.0.0.1:9443").
  assert (Hres : fst (send (sim accept_all) root (GetEndpoints "jwt") w)
                 = inl (answer 200 "OK" root (GetEndpoints "jwt")
                          (EndpointsPayload (sim_endpoints w))))
    by reflexivity.
  exact (proj1 (proj2 (get_endpoint_id_on_listing (sim accept_all) root "jwt"
                         "local" w _ (sim_endpoints w) Hres eq_refl eq_refl))).
Defined.

Lemma main_first_effect_witness :
  main (sim accept_all) (playbook false []) (running [])
  = (fail_json None "No stacks provided in playbook", running [], []) /\
  exists res rest,
    snd (main (sim accept_all) (playbook false [stack_a "Stack1"]) (running []))
    = EvHttp "https://10.0.0.1:9443" GetRoot res :: rest.
Proof.
  split.
  - apply (proj1 (main_first_effect (sim accept_all) (playbook false [])
                    (running []))).
    reflexivity.
  - apply (proj2 (main_first_effect (sim accept_all)
                    (playbook false [stack_a "Stack1"]) (running []))).
    discriminate.
Defined.

Lemma loop_aborts_only_on_open_failure_witness :
  let p := playbook false [stack_a "Stack1"; stack_missing "Stack2"] in
  let r := main (sim accept_all) p (running []) in
  (exists c m d f, fst (fst r) = exit_json c m d f) \/
  (exists s msg,
      In s (stacks p) /\
      In (EvOpen (compose_file s) (inr msg)) (snd r) /\
      fst (fst r) = fail_json (Some false) msg).
Proof.
  intros p r.
  assert (Hst : steps_1_to_5 (sim accept_all) p (running [])
                = (Return ("jwt", 1%Z, []), running [],
                   snd (steps_1_to_5 (sim accept_all) p (running []))))
    by (vm_compute; reflexivity).
  assert (Hm : main (sim accept_all) p (running [])
               = (fst (fst r), snd (fst r), snd r)) by (vm_compute; reflexivity).
  apply (loop_aborts_only_on_open_failure (sim accept_all) p (running [])
           _ _ _ _ _ _ ltac:(discriminate) Hst Hm).
Defined.

Lemma requests_carry_session_and_endpoint_witness :
  let p := playbook true [stack_a "StackA"; stack_b "StackB"] in
  let t := snd (main (sim accept_all) p fresh) in
  sessions t = [Some "jwt"] /\
  exists e, find (named "local") (endpoints_listed t) = Some e /\ 1%Z = Id e.
Proof.
  intros p t.
  destruct (requests_carry_session_and_endpoint (sim accept_all) p fresh)
    as [Htok Hid].
  split.
  - apply (Htok (GetStacks "jwt") "jwt"); [vm_compute; auto 10|reflexivity].
  - apply (Hid "jwt" "StackA" compose_yml 1%Z). vm_compute. auto 10.
Defined.

Lemma successful_run_calls_witness :
  let p := playbook true [stack_a "StackA"; stack_b "StackB"] in
  let t := snd (main (sim accept_all) p fresh) in
  exists a tok e,
    admin_answers t = [a] /\
    sessions t = [Some tok] /\
    find (named (endpoint p)) (endpoints_listed t) = Some e /\
    calls t
    = ([GetRoot; GetAdminCheck]
       ++ (if initial_setup p && negb a
           then [PostAdminInit (admin_username p) (admin_password p);
                 PostAuth (admin_username p) (admin_password p);
                 PostEndpoints tok (endpoint p)]
           else [PostAuth (admin_username p) (admin_password p)])
       ++ [GetEndpoints tok; GetStacks tok]
       ++ map (creation_request tok (Id e))
            (combine (to_create (listed t) (stacks p)) (files_read t)))%list /\
    length (files_read t) = length (to_create (listed t) (stacks p)).
Proof.
  intros p t.
  assert (Hm : main (sim accept_all) p fresh
               = (exit_json true "2 stacks created" "2" "0",
                  snd (fst (main (sim accept_all) p fresh)), t))
    by (vm_compute; reflexivity).
  exact (successful_run_calls (sim accept_all) p fresh _ _ _ _ _ _ Hm).
Defined.

Lemma successful_run_warnings_witness :
  let p := playbook true [stack_a "Stack1"; stack_b "Stack2"] in
  let t := snd (main (sim accept_all) p (running ["stack1"])) in
  exists a,
    admin_answers t = [a] /\
    warned t
    = ((if a then [admin_warning] else [])
       ++ map skip_warning (skipped (listed t) (stacks p)))%list.
Proof.
  intros p t.
  assert (Hm : main (sim accept_all) p (running ["stack1"])
               = (exit_json true "1 stacks created" "1" "0",
                  snd (fst (main (sim accept_all) p (running ["stack1"]))), t))
    by (vm_compute; reflexivity).
  exact (successful_run_warnings (sim accept_all) p (running ["stack1"])
           _ _ _ _ _ _ Hm).
Defined.

Lemma transport_failure_tagged_and_logged_witness :
  let p := playbook false [stack_a "Stack1"] in
  let t := snd (main (sim accept_all) p unreachable) in
  main (sim accept_all) p unreachable
  = (fail_json (Some false) "ERROR (ping). Exception: Connection refused",
     unreachable, t) /\
  In "ERROR (ping). Exception: Connection refused" (logged t).
Proof.
  intros p t.
  assert (Hst : steps_1_to_5 (sim accept_all) p unreachable
                = (Raise (mkExc RequestException
                            "ERROR (ping). Exception: Connection refused"),
                   unreachable, t)) by (vm_compute; reflexivity).
  destruct (transport_failure_tagged_and_logged (sim accept_all) p unreachable
              _ _ _ ltac:(discriminate) Hst eq_refl) as [Hm [_ Hl]].
  split; [exact Hm|exact Hl].
Defined.

Lemma lowercase_remote_case_insensitive_witness :
  let p := playbook false [stack_a "Stack1"; stack_b "Stack2"] in
  let t := snd (main (sim accept_all) p (running ["stack1"])) in
  (In "Stack1" (map fst (creation_attempts t))
   <-> matches_ignoring_case "Stack1" (listed t) = false) /\
  (In "Stack2" (map fst (creation_attempts t))
   <-> matches_ignoring_case "Stack2" (listed t) = false).
Proof.
  intros p t.
  assert (Hm : main (sim accept_all) p (running ["stack1"])
               = (exit_json true "1 stacks created" "1" "0",
                  snd (fst (main (sim accept_all) p (running ["stack1"]))), t))
    by (vm_compute; reflexivity).
  assert (Hlow : forall r, In r (listed t) -> lower r = r).
  { intros r Hr. vm_compute in Hr. destruct Hr as [<-|[]]. reflexivity. }
  split.
  - apply (lowercase_remote_case_insensitive (sim accept_all) p _ _ _ _ _ _ _
             Hm Hlow (stack_a "Stack1")). simpl. auto.
  - apply (lowercase_remote_case_insensitive (sim accept_all) p _ _ _ _ _ _ _
             Hm Hlow (stack_b "Stack2")). simpl. auto.
Defined.

Lemma password_not_logged_witness :
  logged (trace (create_admin (sim accept_all) "https://10.0.0.1:9443" "admin"
                   "bigsecret123" fresh))
  = logged (trace (create_admin (sim accept_all) "https://10.0.0.1:9443" "admin"
                     "another-secret" fresh)) /\
  logged (trace (create_session (sim accept_all) "https://10.0.0.1:9443" "admin"
                   "bigsecret123" (running [])))
  = logged (trace (create_session (sim accept_all) "https://10.0.0.1:9443" "admin"
                     "another-secret" (running []))).
Proof.
  split.
  - apply (proj1 (password_not_logged (sim accept_all) "https://10.0.0.1:9443"
                    "admin" "bigsecret123" "another-secret" fresh fresh)).
    reflexivity.
  - apply (proj2 (password_not_logged (sim accept_all) "https://10.0.0.1:9443"
                    "admin" "bigsecret123" "another-secret" (running [])
                    (running []))).
    reflexivity.
Defined.
